(** * pymatgen.io.babel: the OpenBabel adaptor

    A shallow embedding of [BabelMolAdaptor] (src/pymatgen/io/babel.py).

    The adaptor is a thin binding: every method is a short sequence of
    calls into OpenBabel (the [ob] and [pb] modules).  The Python code is
    embedded as programs of a state-and-exception monad over a world made of
    the native molecules (by reference), the adaptor objects, the log of
    toolkit calls and the printed lines.  OpenBabel itself is not part of
    the repository: it enters as an interface ([Toolkit]); what a property
    needs of it is an explicit contract ([AtomsContract],
    [SessionContract]), and the reference toolkit is an implementation on
    which the code is run.

    [localopt] and [write_file] hand their arguments to pybel and are not
    embedded.  Python floats are idealised as real numbers. *)

From Stdlib Require Import Reals Lra ZArith QArith.
From stdpp Require Import base gmap strings list pretty.

Local Open Scope Z_scope.

(** ** Python exceptions and outcomes *)

Inductive PyExc : Type :=
| ValueError (msg : string)
| RuntimeError (msg : string)
| IndexError (msg : string)
| AttributeError (msg : string)
| IOError (msg : string).

Inductive outcome (A : Type) : Type :=
| Ret (a : A)
| Raise (e : PyExc).
Arguments Ret {A} a.
Arguments Raise {A} e.

(** Plain Python values that are neither molecules nor native handles. *)
Inductive PyVal : Type :=
| PyNone
| PyInt (n : Z)
| PyStr (s : string)
| PyBuiltin (name : string).

(** [a == b] on plain values ([in] uses it on the elements of a list). *)
Definition py_eqb (a b : PyVal) : bool :=
  match a, b with
  | PyNone, PyNone => true
  | PyInt n, PyInt m => Z.eqb n m
  | PyStr s, PyStr t => String.eqb s t
  | PyBuiltin s, PyBuiltin t => String.eqb s t
  | _, _ => false
  end.

(** [x in l] for a Python list [l]. *)
Definition py_in (x : PyVal) (l : list PyVal) : bool := existsb (py_eqb x) l.

(** Truthiness of an optional list argument ([None] and [[]] are falsy). *)
Definition truthy_list {A} (o : option (list A)) : bool :=
  match o with
  | Some (_ :: _) => true
  | _ => false
  end.

(** References to objects (native molecules, adaptors). *)
Definition loc := nat.

(** ** The structural molecule (pymatgen.core.structure) *)

Definition Coord : Type := R * R * R.

Record Specie : Type := { specie_Z : Z }.

(** Modelled from the spec: [pymatgen.core.structure] is not among the
    sources.  A site carries its species with their occupancies and a
    Cartesian coordinate; it is ordered when it "maps to exactly one
    definite species (no partial/statistical occupancy)". *)
Record Site : Type := {
  species : list (Specie * Q);
  coords : Coord
}.

Definition site_is_ordered (s : Site) : bool :=
  match species s with
  | [(_, occu)] => Qeq_bool occu 1
  | _ => false
  end.

(** Modelled from the spec: [site.specie], the single definite species of
    an ordered site; an error on a disordered one. *)
Definition specie (s : Site) : outcome Specie :=
  match species s with
  | [(sp, occu)] =>
      if Qeq_bool occu 1 then Ret sp
      else Raise (AttributeError "specie property only works for ordered sites!")
  | _ => Raise (AttributeError "specie property only works for ordered sites!")
  end.

(** Modelled from the spec: "a sequence of atoms ...; plus molecule-level
    scalar attributes: net charge (integer) and spin multiplicity". *)
Record Molecule : Type := {
  sites : list Site;
  charge : Z;
  spin_multiplicity : Z
}.

Definition is_ordered (m : Molecule) : bool := forallb site_is_ordered (sites m).

Definition ordered_site (z : Z) (c : Coord) : Site :=
  {| species := [({| specie_Z := z |}, 1%Q)]; coords := c |}.

(** Modelled from the spec: [Molecule(sp, coords)] builds a molecule from
    atomic numbers and coordinates only ("bare species and coordinates");
    charge takes its default 0 and the spin multiplicity the default that
    follows the parity of the electron count. *)
Definition Molecule_new (sp : list Z) (cs : list Coord) : Molecule :=
  {| sites := zip_with ordered_site sp cs;
     charge := 0;
     spin_multiplicity := if Z.even (foldr Z.add 0 sp) then 1 else 2 |}.

(** The species and coordinate sequences of a molecule's sites. *)
Definition species_sequence (m : Molecule) : list (outcome Specie) :=
  map specie (sites m).

Definition coords_sequence (m : Molecule) : list Coord := map coords (sites m).

(** ** Coordinates about the centroid *)

Definition csum (cs : list Coord) : Coord :=
  foldr (fun '(x, y, z) '(sx, sy, sz) => (x + sx, y + sy, z + sz)%R)
        (0, 0, 0)%R cs.

Definition centroid (cs : list Coord) : Coord :=
  let '(sx, sy, sz) := csum cs in
  let n := INR (length cs) in
  (sx / n, sy / n, sz / n)%R.

Definition translate (d : Coord) (c : Coord) : Coord :=
  let '(dx, dy, dz) := d in
  let '(x, y, z) := c in
  (x - dx, y - dy, z - dz)%R.

(** The positions moved so that their centroid is the origin. *)
Definition centered_positions (cs : list Coord) : list Coord :=
  map (translate (centroid cs)) cs.

(** A set of positions is centered when its centroid is the origin; for at
    least one position this is the sum of the positions being zero. *)
Definition already_centered (cs : list Coord) : Prop := csum cs = (0, 0, 0)%R.

(** ** Native atoms *)

(** What the adaptor writes to and reads from an [OBAtom]: the atomic
    number and the position vector. *)
Record OBAtom : Type := {
  atomic_num : Z;
  vector : Coord
}.

(** [ob.OBAtom()] *)
Definition OBAtom_new : OBAtom := {| atomic_num := 0; vector := (0, 0, 0)%R |}.

Definition SetAtomicNum (z : Z) (a : OBAtom) : OBAtom :=
  {| atomic_num := z; vector := vector a |}.

Definition SetVector (c : Coord) (a : OBAtom) : OBAtom :=
  {| atomic_num := atomic_num a; vector := c |}.

Definition GetAtomicNum (a : OBAtom) : Z := atomic_num a.
Definition GetX (a : OBAtom) : R := a.(vector).1.1.
Definition GetY (a : OBAtom) : R := a.(vector).1.2.
Definition GetZ (a : OBAtom) : R := a.(vector).2.

Definition center_atoms (l : list OBAtom) : list OBAtom :=
  let c := centroid (map vector l) in
  map (fun a => SetVector (translate c (vector a)) a) l.

(** ** The toolkit interface

    The [ob] and [pb] modules as the adaptor uses them.  A native
    molecule is opaque ([OBMol]); the adaptor mutates it through its
    methods and observes it through the atom iterator and the getters. *)

Record Toolkit : Type := {
  OBMol : Type;
  OBMol_new : OBMol;                                   (* ob.OBMol() *)
  BeginModify : OBMol -> OBMol;
  AddAtom : OBAtom -> OBMol -> OBMol;
  ConnectTheDots : OBMol -> OBMol;
  PerceiveBondOrders : OBMol -> OBMol;
  SetTotalSpinMultiplicity : Z -> OBMol -> OBMol;
  SetTotalCharge : Z -> OBMol -> OBMol;
  Center : OBMol -> OBMol;
  Kekulize : OBMol -> OBMol;
  EndModify : OBMol -> OBMol;
  AddHydrogens : OBMol -> OBMol;
  Build : OBMol -> OBMol;                              (* ob.OBBuilder().Build(m) *)
  OBMolAtomIter : OBMol -> list OBAtom;                (* atoms in native order *)
  GetTotalCharge : OBMol -> Z;
  GetTotalSpinMultiplicity : OBMol -> Z;
  NumConformers : OBMol -> nat;
  (* force fields: plugins found by name; the null result is [None] *)
  OBForceField : Type;
  OBForceField_initial : string -> OBForceField;
  OBForceField_FindType : string -> option string;
  SetConstraints : list Z -> OBForceField -> OBForceField;
  WeightedRotorSearch : Z -> Z -> OBForceField -> OBForceField;
  DiverseConfGen : R -> Z -> R -> bool -> OBForceField -> OBForceField;
  GetConformers : OBForceField -> OBMol -> OBMol;
  (* format conversion: the molecules read from a file or from a text *)
  ReadFile : string -> string -> outcome (list OBMol);
  ReadString : string -> string -> outcome (list OBMol)
}.

(** Mutating methods of a native molecule, as they appear in the call log. *)
Inductive MolOp : Type :=
| OpBeginModify
| OpAddAtom (a : OBAtom)
| OpConnectTheDots
| OpPerceiveBondOrders
| OpSetTotalSpinMultiplicity (s : Z)
| OpSetTotalCharge (q : Z)
| OpCenter
| OpKekulize
| OpEndModify
| OpAddHydrogens
| OpBuild.

(** Methods of a force field. *)
Inductive FFOp : Type :=
| OpSetConstraints (constraints : list Z)
| OpWeightedRotorSearch (conformers steps : Z)
| OpDiverseConfGen (rmsd : R) (nconfs : Z) (energy_gap : R) (verbose : bool).

(** One entry of the call log. *)
Inductive Event : Type :=
| EvOBMol (r : loc)                                    (* r = ob.OBMol() *)
| EvMol (r : loc) (op : MolOp)                         (* r.op(...) *)
| EvFindType (name : string) (found : option string)
| EvFF (ff : string) (op : FFOp)                       (* ff.op(...) *)
| EvGetConformers (ff : string) (r : loc)              (* ff.GetConformers(r) *)
| EvRead (rs : list loc).                              (* molecules read by pybel *)

(** The adaptor object: its only attribute is [_obmol]; [None] when the
    attribute has not been set. *)
Record Adaptor : Type := { _obmol : option loc }.

(** [pb.Molecule(obmol)]: pybel's wrapper keeps the native molecule. *)
Record PybelMolecule : Type := { pbOBMol : loc }.

(** What a caller can pass to the constructor. *)
Inductive PyObj : Type :=
| PyMolecule (m : Molecule)
| PyOBMol (r : loc)
| PyOther (v : PyVal).

(** ** What the specification says about the toolkit

    Each contract lists, call by call, what the properties below use of
    the toolkit. *)

(** Modelled from the spec: OpenBabel's molecule is not among the sources.
    Atoms: a new molecule is empty; [AddAtom] appends the atom ("add a
    native atom with the given atomic number and coordinate"); centering
    changes positions at most, so the atomic numbers stay in their order;
    bond perception, bond-order perception, kekulization, the
    molecule-level setters and the build session leave the atoms as they
    are. *)
Class AtomsContract (tk : Toolkit) : Prop := {
  atoms_OBMol_new : OBMolAtomIter tk (OBMol_new tk) = [];
  atoms_AddAtom a m :
    OBMolAtomIter tk (AddAtom tk a m) = OBMolAtomIter tk m ++ [a];
  atoms_BeginModify m : OBMolAtomIter tk (BeginModify tk m) = OBMolAtomIter tk m;
  atoms_ConnectTheDots m :
    OBMolAtomIter tk (ConnectTheDots tk m) = OBMolAtomIter tk m;
  atoms_PerceiveBondOrders m :
    OBMolAtomIter tk (PerceiveBondOrders tk m) = OBMolAtomIter tk m;
  atoms_SetTotalSpinMultiplicity s m :
    OBMolAtomIter tk (SetTotalSpinMultiplicity tk s m) = OBMolAtomIter tk m;
  atoms_SetTotalCharge q m :
    OBMolAtomIter tk (SetTotalCharge tk q m) = OBMolAtomIter tk m;
  atoms_Center m :
    map atomic_num (OBMolAtomIter tk (Center tk m))
    = map atomic_num (OBMolAtomIter tk m);
  atoms_Kekulize m : OBMolAtomIter tk (Kekulize tk m) = OBMolAtomIter tk m;
  atoms_EndModify m : OBMolAtomIter tk (EndModify tk m) = OBMolAtomIter tk m
}.

(** OpenBabel's build session.  Between [BeginModify] and [EndModify] the
    positions live in the atoms and the molecule has no coordinate array
    yet, so [Center], which shifts the coordinate arrays, moves nothing.
    [building m] says that [m] is inside an open session. *)
Class SessionContract (tk : Toolkit) (building : OBMol tk -> Prop) : Prop := {
  building_BeginModify m : building (BeginModify tk m);
  building_AddAtom a m : building m -> building (AddAtom tk a m);
  building_ConnectTheDots m : building m -> building (ConnectTheDots tk m);
  building_PerceiveBondOrders m :
    building m -> building (PerceiveBondOrders tk m);
  building_SetTotalSpinMultiplicity s m :
    building m -> building (SetTotalSpinMultiplicity tk s m);
  building_SetTotalCharge q m : building m -> building (SetTotalCharge tk q m);
  atoms_Center_building m :
    building m -> OBMolAtomIter tk (Center tk m) = OBMolAtomIter tk m
}.

(** ** A reference toolkit

    A small implementation of the interface: molecules are their atoms,
    bonds, charge, spin multiplicity, build depth and conformer count.  Its
    build session behaves as OpenBabel's: [Center] moves nothing while a
    session is open, and the [EndModify] that closes the session resets the
    molecule's flags, among them the marks that a total charge and a total
    spin multiplicity were set; the getters then fall back on the atoms,
    which carry no formal charge and no spin here (0 and 1).  It meets the
    two contracts, and the theorems are instantiated on it. *)
Module Reference.

Record mol : Type := {
  m_atoms : list OBAtom;
  m_bonds : list (nat * nat * nat);       (* begin, end, order *)
  m_charge : Z;
  m_spin : Z;
  m_depth : nat;
  m_conformers : nat
}.

Definition empty : mol :=
  {| m_atoms := []; m_bonds := []; m_charge := 0; m_spin := 1;
     m_depth := 0; m_conformers := 0 |}.

Definition with_atoms (f : list OBAtom -> list OBAtom) (m : mol) : mol :=
  {| m_atoms := f (m_atoms m); m_bonds := m_bonds m; m_charge := m_charge m;
     m_spin := m_spin m; m_depth := m_depth m; m_conformers := m_conformers m |}.

Definition with_bonds (f : list (nat * nat * nat) -> list (nat * nat * nat))
    (m : mol) : mol :=
  {| m_atoms := m_atoms m; m_bonds := f (m_bonds m); m_charge := m_charge m;
     m_spin := m_spin m; m_depth := m_depth m; m_conformers := m_conformers m |}.

Definition with_charge (q : Z) (m : mol) : mol :=
  {| m_atoms := m_atoms m; m_bonds := m_bonds m; m_charge := q;
     m_spin := m_spin m; m_depth := m_depth m; m_conformers := m_conformers m |}.

Definition with_spin (s : Z) (m : mol) : mol :=
  {| m_atoms := m_atoms m; m_bonds := m_bonds m; m_charge := m_charge m;
     m_spin := s; m_depth := m_depth m; m_conformers := m_conformers m |}.

Definition with_depth (f : nat -> nat) (m : mol) : mol :=
  {| m_atoms := m_atoms m; m_bonds := m_bonds m; m_charge := m_charge m;
     m_spin := m_spin m; m_depth := f (m_depth m);
     m_conformers := m_conformers m |}.

Definition with_conformers (n : nat) (m : mol) : mol :=
  {| m_atoms := m_atoms m; m_bonds := m_bonds m; m_charge := m_charge m;
     m_spin := m_spin m; m_depth := m_depth m; m_conformers := n |}.

(** A chain of single bonds along the atom order stands for perception. *)
Definition chain (n : nat) : list (nat * nat * nat) :=
  map (fun i => (i, S i, 1%nat)) (seq 0 (pred n)).

Record forcefield : Type := {
  f_constraints : list Z;
  f_found : nat
}.

Definition known_forcefields : list string :=
  ["gaff"; "ghemical"; "mmff94"; "mmff94s"; "uff"].

Definition find_type (name : string) : option string :=
  if existsb (String.eqb name) known_forcefields then Some name else None.

Definition hydrogen (c : Coord) : OBAtom := {| atomic_num := 1; vector := c |}.

Definition h2 : mol :=
  with_atoms (fun _ => [hydrogen (0, 0, 0)%R; hydrogen (0, 0, 1)%R]) empty.

(** The files and texts the reference converter knows. *)
Definition read (name : string) : outcome (list mol) :=
  if String.eqb name "h2.xyz" then Ret [h2]
  else if String.eqb name "empty.xyz" then Ret []
  else Raise (IOError ("No such file: '" +:+ name +:+ "'")).

(** [Center]: nothing to shift while a session is open. *)
Definition center (m : mol) : mol :=
  match m_depth m with
  | O => with_atoms center_atoms m
  | S _ => m
  end.

(** [EndModify]: without an open session nothing happens; closing the
    outermost session resets the flags; an inner one only counts down. *)
Definition end_modify (m : mol) : mol :=
  match m_depth m with
  | O => m
  | S O =>
      {| m_atoms := m_atoms m; m_bonds := m_bonds m; m_charge := 0; m_spin := 1;
         m_depth := 0; m_conformers := m_conformers m |}
  | S (S _) => with_depth pred m
  end.

Definition toolkit : Toolkit :=
  {| OBMol := mol;
     OBMol_new := empty;
     BeginModify := with_depth S;
     AddAtom := fun a => with_atoms (fun l => l ++ [a]);
     ConnectTheDots := fun m => with_bonds (fun _ => chain (length (m_atoms m))) m;
     PerceiveBondOrders := fun m => m;
     SetTotalSpinMultiplicity := with_spin;
     SetTotalCharge := with_charge;
     Center := center;
     Kekulize := fun m => m;
     EndModify := end_modify;
     AddHydrogens := fun m => m;
     Build := fun m => m;
     OBMolAtomIter := m_atoms;
     GetTotalCharge := m_charge;
     GetTotalSpinMultiplicity := m_spin;
     NumConformers := m_conformers;
     OBForceField := forcefield;
     OBForceField_initial := fun _ => {| f_constraints := []; f_found := 0 |};
     OBForceField_FindType := find_type;
     SetConstraints := fun cs f =>
       {| f_constraints := cs; f_found := f_found f |};
     WeightedRotorSearch := fun _ _ f => f;
     DiverseConfGen := fun _ _ _ _ f =>
       {| f_constraints := f_constraints f; f_found := 1 |};
     GetConformers := fun f => with_conformers (f_found f);
     ReadFile := fun _ filename => read filename;
     ReadString := fun _ text => read text |}.

End Reference.

(** ** Example inputs *)

(** A hydrogen molecule along the z axis, not centered. *)
Definition h2_molecule : Molecule :=
  {| sites := [ordered_site 1 (0, 0, 0)%R; ordered_site 1 (0, 0, 2)%R];
     charge := 0;
     spin_multiplicity := 1 |}.

(** The water cation: charge +1, a doublet. *)
Definition water_cation : Molecule :=
  {| sites := [ordered_site 8 (0, 0, 0)%R;
               ordered_site 1 (1, 1, 0)%R;
               ordered_site 1 (-1, 1, 0)%R];
     charge := 1;
     spin_multiplicity := 2 |}.

(** A molecule whose second site is shared by two species. *)
Definition disordered_molecule : Molecule :=
  {| sites := [ordered_site 6 (0, 0, 0)%R;
               {| species := [({| specie_Z := 7 |}, 1 # 2);
                              ({| specie_Z := 8 |}, 1 # 2)]%Q;
                  coords := (1, 0, 0)%R |}];
     charge := 0;
     spin_multiplicity := 1 |}.

(** ** The imported modules *)

Existing Class Toolkit.

(** Whether [import openbabel as ob; import pybel as pb] succeeded; when it
    did not, both names are [None]. *)
Class ImportState : Type := imported : bool.

Section Adaptor.

Context {tk : Toolkit} {import_state : ImportState}.

Definition run_mol_op (op : MolOp) : OBMol tk -> OBMol tk :=
  match op with
  | OpBeginModify => BeginModify tk
  | OpAddAtom a => AddAtom tk a
  | OpConnectTheDots => ConnectTheDots tk
  | OpPerceiveBondOrders => PerceiveBondOrders tk
  | OpSetTotalSpinMultiplicity s => SetTotalSpinMultiplicity tk s
  | OpSetTotalCharge q => SetTotalCharge tk q
  | OpCenter => Center tk
  | OpKekulize => Kekulize tk
  | OpEndModify => EndModify tk
  | OpAddHydrogens => AddHydrogens tk
  | OpBuild => Build tk
  end.

Definition run_ff_op (op : FFOp) : OBForceField tk -> OBForceField tk :=
  match op with
  | OpSetConstraints cs => SetConstraints tk cs
  | OpWeightedRotorSearch n s => WeightedRotorSearch tk n s
  | OpDiverseConfGen rmsd n e v => DiverseConfGen tk rmsd n e v
  end.

(** ** The world and the monad of Python programs *)

Record World : Type := {
  ob_heap : gmap loc (OBMol tk);            (* native molecules *)
  ff_heap : gmap string (OBForceField tk);  (* state of the force fields used *)
  adaptors : gmap loc Adaptor;              (* adaptor objects *)
  calls : list Event;                       (* toolkit calls, oldest first *)
  stdout : list string                      (* printed lines, oldest first *)
}.

Definition Py (A : Type) : Type := World -> outcome A * World.

Definition ret {A} (a : A) : Py A := fun w => (Ret a, w).

Definition raise {A} (e : PyExc) : Py A := fun w => (Raise e, w).

Definition bind {A B} (m : Py A) (k : A -> Py B) : Py B :=
  fun w =>
    match m w with
    | (Ret a, w') => k a w'
    | (Raise e, w') => (Raise e, w')
    end.

#[local] Notation "x <- m ;; k" := (bind m (fun x => k))
  (at level 100, m at next level, right associativity).
#[local] Notation "m ;;; k" := (bind m (fun _ => k))
  (at level 100, right associativity).

Definition lift {A} (o : outcome A) : Py A := fun w => (o, w).

Definition add_call (e : Event) (w : World) : World :=
  {| ob_heap := ob_heap w; ff_heap := ff_heap w; adaptors := adaptors w;
     calls := calls w ++ [e]; stdout := stdout w |}.

Definition add_line (line : string) (w : World) : World :=
  {| ob_heap := ob_heap w; ff_heap := ff_heap w; adaptors := adaptors w;
     calls := calls w; stdout := stdout w ++ [line] |}.

Definition log (e : Event) : Py unit := fun w => (Ret tt, add_call e w).

Definition print (line : string) : Py unit := fun w => (Ret tt, add_line line w).

Definition set_mol (r : loc) (m : OBMol tk) (w : World) : World :=
  {| ob_heap := <[r := m]> (ob_heap w); ff_heap := ff_heap w;
     adaptors := adaptors w; calls := calls w; stdout := stdout w |}.

Definition set_ff (name : string) (f : OBForceField tk) (w : World) : World :=
  {| ob_heap := ob_heap w; ff_heap := <[name := f]> (ff_heap w);
     adaptors := adaptors w; calls := calls w; stdout := stdout w |}.

Definition set_adaptor (self : loc) (a : Adaptor) (w : World) : World :=
  {| ob_heap := ob_heap w; ff_heap := ff_heap w;
     adaptors := <[self := a]> (adaptors w); calls := calls w; stdout := stdout w |}.

(** [for x in l: body] *)
Fixpoint for_each {A} (l : list A) (body : A -> Py unit) : Py unit :=
  match l with
  | [] => ret tt
  | x :: l' => body x ;;; for_each l' body
  end.

(** ** Access to the toolkit *)

(** Reading an attribute of the module [ob] or [pb]: fails when the import
    failed and the module is [None]. *)
Definition module_attr (attr : string) : Py unit :=
  if imported then ret tt
  else raise (AttributeError ("'NoneType' object has no attribute '" +:+ attr +:+ "'")).

(** A native molecule entering the heap under a fresh reference. *)
Definition alloc_mol (m : OBMol tk) : Py loc :=
  fun w => let r := fresh (dom (ob_heap w)) in (Ret r, set_mol r m w).

(** [ob.OBMol()] *)
Definition new_OBMol : Py loc :=
  module_attr "OBMol" ;;;
  r <- alloc_mol (OBMol_new tk) ;;
  log (EvOBMol r) ;;;
  ret r.

(** The native molecule a reference stands for. *)
Definition deref (r : loc) : Py (OBMol tk) :=
  fun w =>
    match ob_heap w !! r with
    | Some m => (Ret m, w)
    | None => (Raise (RuntimeError "invalid native handle"), w)
    end.

(** [r.op(...)]: the molecule is changed in place. *)
Definition mol_call (r : loc) (op : MolOp) : Py unit :=
  m <- deref r ;;
  (fun w => (Ret tt, set_mol r (run_mol_op op m) w)) ;;;
  log (EvMol r op).

(** [ob.OBMolAtomIter(r)]: the atoms with their 0-based index
    ([atom.GetIndex()]). *)
Definition atom_iter (r : loc) : Py (list (nat * OBAtom)) :=
  m <- deref r ;;
  ret (imap (fun i a => (i, a)) (OBMolAtomIter tk m)).

(** [ob.OBForceField_FindType(name)]: the force field of that name, or
    Python's [None] when no plugin has the name. *)
Definition find_forcefield (name : string) : Py (option string) :=
  module_attr "OBForceField_FindType" ;;;
  log (EvFindType name (OBForceField_FindType tk name)) ;;;
  ret (OBForceField_FindType tk name).

(** [ff == 0] for the result of a lookup: neither a force-field object nor
    [None] equals the integer 0. *)
Definition ff_eq_zero (ff : option string) : bool :=
  match ff with
  | Some _ => false
  | None => false
  end.

Definition ff_state (name : string) (w : World) : OBForceField tk :=
  default (OBForceField_initial tk name) (ff_heap w !! name).

(** [ff.op(...)]: a method called on the [None] of a failed lookup is an
    attribute error. *)
Definition ff_call (ff : option string) (method : string) (op : FFOp) : Py unit :=
  match ff with
  | None =>
      raise (AttributeError
               ("'NoneType' object has no attribute '" +:+ method +:+ "'"))
  | Some name =>
      (fun w => (Ret tt, set_ff name (run_ff_op op (ff_state name w)) w)) ;;;
      log (EvFF name op)
  end.

(** [ff.GetConformers(r)] *)
Definition ff_GetConformers (ff : option string) (r : loc) : Py unit :=
  match ff with
  | None =>
      raise (AttributeError "'NoneType' object has no attribute 'GetConformers'")
  | Some name =>
      m <- deref r ;;
      (fun w => (Ret tt, set_mol r (GetConformers tk (ff_state name w) m) w)) ;;;
      log (EvGetConformers name r)
  end.

(** ** Attributes of the adaptor object *)

(** A new object without attributes. *)
Definition new_object : Py loc :=
  fun w => let self := fresh (dom (adaptors w)) in
           (Ret self, set_adaptor self {| _obmol := None |} w).

(** [self._obmol = r] *)
Definition set_obmol (self r : loc) : Py unit :=
  fun w => (Ret tt, set_adaptor self {| _obmol := Some r |} w).

(** [self._obmol] *)
Definition get_obmol (self : loc) : Py loc :=
  fun w =>
    match adaptors w !! self with
    | Some {| _obmol := Some r |} => (Ret r, w)
    | _ => (Raise (AttributeError
                     "'BabelMolAdaptor' object has no attribute '_obmol'"), w)
    end.

(** ** pybel *)

(** [pb.Molecule(r)] *)
Definition pb_Molecule (r : loc) : Py PybelMolecule :=
  ret {| pbOBMol := r |}.

Fixpoint alloc_all (ms : list (OBMol tk)) : Py (list loc) :=
  match ms with
  | [] => ret []
  | m :: ms' => r <- alloc_mol m ;; rs <- alloc_all ms' ;; ret (r :: rs)
  end.

(** Modelled from the spec: pybel is not among the sources.
    [list(pb.readfile(format, filename))] is every molecule the converter
    reads from the file ("parse the file into one or more native
    molecules"), each wrapped; the converter's error otherwise. *)
Definition pb_readfile (format filename : string) : Py (list PybelMolecule) :=
  module_attr "readfile" ;;;
  ms <- lift (ReadFile tk format filename) ;;
  rs <- alloc_all ms ;;
  log (EvRead rs) ;;;
  ret (map (fun r => {| pbOBMol := r |}) rs).

(** Modelled from the spec: pybel is not among the sources.
    [pb.readstring(format, string)] is the first molecule the converter
    reads from the text; it "raises an error rather than returning a
    handle" ([IOError]) when the converter reads none. *)
Definition pb_readstring (format text : string) : Py PybelMolecule :=
  module_attr "readstring" ;;;
  ms <- lift (ReadString tk format text) ;;
  match ms with
  | [] => raise (IOError ("Failed to convert '" +:+ text +:+ "' to format '"
                           +:+ format +:+ "'"))
  | m :: _ =>
      r <- alloc_mol m ;;
      log (EvRead [r]) ;;;
      ret {| pbOBMol := r |}
  end.

(** ** BabelMolAdaptor *)

(** [monty.dev.requires(condition, message)]: the decorated callable runs
    when the condition holds and raises [RuntimeError(message)] otherwise. *)
Definition requires {A} (condition : bool) (message : string) (callable : Py A)
  : Py A :=
  if condition then callable else raise (RuntimeError message).

(** The body of the [for site in mol] loop of [__init__].  The atom is
    copied into the molecule by [AddAtom]; [thisown] and [del] concern the
    ownership of the temporary and have no counterpart here. *)
Definition add_site (obmol : loc) (site : Site) : Py unit :=
  let coords := coords site in
  sp <- lift (specie site) ;;
  let atomno := specie_Z sp in
  module_attr "OBAtom" ;;;
  let obatom := OBAtom_new in
  let obatom := SetAtomicNum atomno obatom in
  let obatom := SetVector coords obatom in
  mol_call obmol (OpAddAtom obatom).

(** [BabelMolAdaptor.__init__(self, mol)] *)
Definition __init__ (self : loc) (mol : PyObj) : Py unit :=
  requires imported
    ("BabelMolAdaptor requires openbabel to be installed with "
     +:+ "Python bindings. Please get it at http://openbabel.org.")
    match mol with
    | PyMolecule mol =>
        if negb (is_ordered mol) then
          raise (ValueError ("OpenBabel Molecule only supports ordered "
                             +:+ "molecules."))
        else
          _ <- new_OBMol ;;
          obmol <- new_OBMol ;;
          mol_call obmol OpBeginModify ;;;
          for_each (sites mol) (add_site obmol) ;;;
          mol_call obmol OpConnectTheDots ;;;
          mol_call obmol OpPerceiveBondOrders ;;;
          mol_call obmol (OpSetTotalSpinMultiplicity (spin_multiplicity mol)) ;;;
          mol_call obmol (OpSetTotalCharge (charge mol)) ;;;
          mol_call obmol OpCenter ;;;
          mol_call obmol OpKekulize ;;;
          mol_call obmol OpEndModify ;;;
          set_obmol self obmol
    | PyOBMol mol =>
        module_attr "OBMol" ;;;
        set_obmol self mol
    | PyOther _ =>
        module_attr "OBMol" ;;;
        ret tt
    end.

(** [BabelMolAdaptor(mol)]: a new object, initialised. *)
Definition BabelMolAdaptor (mol : PyObj) : Py loc :=
  self <- new_object ;;
  __init__ self mol ;;;
  ret self.

(** The [pymatgen_mol] property. *)
Definition pymatgen_mol (self : loc) : Py Molecule :=
  module_attr "OBMolAtomIter" ;;;
  obmol <- get_obmol self ;;
  atoms <- atom_iter obmol ;;
  let sp := map (fun '(_, atom) => GetAtomicNum atom) atoms in
  let coords := map (fun '(_, atom) => (GetX atom, GetY atom, GetZ atom)) atoms in
  ret (Molecule_new sp coords).

(** The [openbabel_mol] property. *)
Definition openbabel_mol (self : loc) : Py loc := get_obmol self.

(** The [pybel_mol] property. *)
Definition pybel_mol (self : loc) : Py PybelMolecule :=
  module_attr "Molecule" ;;;
  obmol <- get_obmol self ;;
  pb_Molecule obmol.

(** The constraint loop of [confm_search]: [id] in the membership test is
    the Python builtin of that name, not the loop's [atom_id]. *)
Definition freeze_constraints (atoms : list (nat * OBAtom))
    (freeze_atoms : list PyVal) : list Z :=
  foldl (fun constraints '(index, _) =>
           let atom_id := Z.of_nat index + 1 in
           if py_in (PyBuiltin "id") freeze_atoms
           then constraints ++ [atom_id]
           else constraints)
        [] atoms.

(** [BabelMolAdaptor.confm_search]; the result is what the call evaluates
    to ([PyNone] for a method that ends without [return]). *)
Definition confm_search (self : loc) (forcefield : string)
    (freeze_atoms : option (list PyVal)) (rmsd_cutoff energy_cutoff : R)
    (conf_cutoff : Z) (verbose make_3d add_hydrogens : bool) : Py PyVal :=
  obmol <- openbabel_mol self ;;
  (if make_3d then
     module_attr "OBBuilder" ;;;
     mol_call obmol OpBuild
   else ret tt) ;;;
  (if add_hydrogens then mol_call obmol OpAddHydrogens else ret tt) ;;;
  ff <- find_forcefield forcefield ;;
  ff <- (if ff_eq_zero ff then
           print ("Could not find forcefield " +:+ forcefield
                  +:+ " in openbabel, the forcefield "
                  +:+ "will be reset as default 'mmff94'") ;;;
           find_forcefield "mmff94"
         else ret ff) ;;
  (match freeze_atoms with
   | Some (x :: l) =>
       let freeze_atoms := x :: l in
       print (pretty (length freeze_atoms) +:+ " atoms will be freezed") ;;;
       module_attr "OBFFConstraints" ;;;
       module_attr "OBMolAtomIter" ;;;
       held <- openbabel_mol self ;;
       atoms <- atom_iter held ;;
       let constraints := freeze_constraints atoms freeze_atoms in
       ff_call ff "SetConstraints" (OpSetConstraints constraints)
   | _ => ret tt
   end) ;;;
  ff_call ff "WeightedRotorSearch" (OpWeightedRotorSearch 500 25) ;;;
  ff_call ff "DiverseConfGen"
    (OpDiverseConfGen rmsd_cutoff conf_cutoff energy_cutoff verbose) ;;;
  ff_GetConformers ff obmol ;;;
  (if verbose then
     m <- deref obmol ;;
     print ("Generated " +:+ pretty (NumConformers tk m) +:+ " conformers total")
   else ret tt) ;;;
  set_obmol self obmol ;;;
  ret PyNone.

(** [BabelMolAdaptor.from_file(filename, file_format)] *)
Definition from_file (filename file_format : string) : Py loc :=
  mols <- pb_readfile file_format filename ;;
  match mols with
  | [] => raise (IndexError "list index out of range")
  | first :: _ => BabelMolAdaptor (PyOBMol (pbOBMol first))
  end.

(** [BabelMolAdaptor.from_string(string_data, file_format)] *)
Definition from_string (string_data file_format : string) : Py loc :=
  mols <- pb_readstring file_format string_data ;;
  BabelMolAdaptor (PyOBMol (pbOBMol mols)).


(** ** What the constructor is expected to leave behind *)

(** The native atom the constructor makes of a site. *)
Definition site_atom (site : Site) : OBAtom :=
  {| atomic_num := match specie site with
                   | Ret sp => specie_Z sp
                   | Raise _ => 0
                   end;
     vector := coords site |}.

(** The world after the loop: the atoms added in order, one logged call
    each. *)
Definition after_sites (obmol : loc) (l : list Site) (m : OBMol tk) (w : World)
  : World :=
  {| ob_heap := <[obmol := foldl (fun m s => AddAtom tk (site_atom s) m) m l]>
                  (ob_heap w);
     ff_heap := ff_heap w;
     adaptors := adaptors w;
     calls := calls w ++ map (fun s => EvMol obmol (OpAddAtom (site_atom s))) l;
     stdout := stdout w |}.

(** The native molecule that the calls of [__init__] make of a structural
    molecule. *)
Definition built_mol (mol : Molecule) : OBMol tk :=
  EndModify tk
    (Kekulize tk
      (Center tk
        (SetTotalCharge tk (charge mol)
          (SetTotalSpinMultiplicity tk (spin_multiplicity mol)
            (PerceiveBondOrders tk
              (ConnectTheDots tk
                (foldl (fun m s => AddAtom tk (site_atom s) m)
                       (BeginModify tk (OBMol_new tk)) (sites mol)))))))).

(** The calls of one construction on the molecule [obmol], in order. *)
Definition build_events (obmol : loc) (mol : Molecule) : list Event :=
  [EvMol obmol OpBeginModify]
  ++ map (fun s => EvMol obmol (OpAddAtom (site_atom s))) (sites mol)
  ++ [EvMol obmol OpConnectTheDots;
      EvMol obmol OpPerceiveBondOrders;
      EvMol obmol (OpSetTotalSpinMultiplicity (spin_multiplicity mol));
      EvMol obmol (OpSetTotalCharge (charge mol));
      EvMol obmol OpCenter;
      EvMol obmol OpKekulize;
      EvMol obmol OpEndModify].

(** The world after [BabelMolAdaptor(mol)] for an ordered [mol]. *)
Definition after_construction (mol : Molecule) (w : World) : World :=
  let self := fresh (dom (adaptors w)) in
  let scratch := fresh (dom (ob_heap w)) in
  let heap := <[scratch := OBMol_new tk]> (ob_heap w) in
  let obmol := fresh (dom heap) in
  {| ob_heap := <[obmol := built_mol mol]> heap;
     ff_heap := ff_heap w;
     adaptors := <[self := {| _obmol := Some obmol |}]> (adaptors w);
     calls := calls w ++ [EvOBMol scratch; EvOBMol obmol] ++ build_events obmol mol;
     stdout := stdout w |}.

(** ** Specifications of programs *)

(** [returns m w Q]: if [m] run in [w] returns, the value and the world
    satisfy [Q]. *)
Definition returns {A} (m : Py A) (w : World) (Q : A -> World -> Prop) : Prop :=
  match m w with
  | (Ret a, w') => Q a w'
  | (Raise _, _) => True
  end.

(** The calls that precede the force-field lookup in [confm_search]. *)
Definition search_prelude (obmol : loc) (make_3d add_hydrogens : bool)
  : list Event :=
  (if make_3d then [EvMol obmol OpBuild] else [])
  ++ (if add_hydrogens then [EvMol obmol OpAddHydrogens] else []).

(** The search proper on the force field [ff]: rotor search, diverse
    conformer generation, and the conformers copied into [obmol]. *)
Definition search_events (ff : string) (obmol : loc) (rmsd_cutoff : R)
    (conf_cutoff : Z) (energy_cutoff : R) (verbose : bool) : list Event :=
  [EvFF ff (OpWeightedRotorSearch 500 25);
   EvFF ff (OpDiverseConfGen rmsd_cutoff conf_cutoff energy_cutoff verbose);
   EvGetConformers ff obmol].

End Adaptor.

Notation "x <- m ;; k" := (bind m (fun x => k))
  (at level 100, m at next level, right associativity).
Notation "m ;;; k" := (bind m (fun _ => k))
  (at level 100, right associativity).

(** ** Example worlds for the reference toolkit *)

Definition empty_world : @World Reference.toolkit :=
  {| ob_heap := ∅; ff_heap := ∅; adaptors := ∅; calls := []; stdout := [] |}.

(** One adaptor (object 0) holding the hydrogen molecule (handle 0). *)
Definition h2_world : @World Reference.toolkit :=
  {| ob_heap := {[ 0%nat := Reference.h2 ]};
     ff_heap := ∅;
     adaptors := {[ 0%nat := {| _obmol := Some 0%nat |} ]};
     calls := [];
     stdout := [] |}.

(** The import state of a process in which OpenBabel is installed. *)
Definition imports_succeeded : ImportState := true.

#[global] Existing Instance Reference.toolkit.
#[global] Existing Instance imports_succeeded.

(** The constraint set that the docstring of [confm_search] describes
    ("List of indices of atoms to be fixed during search"): the atoms whose
    1-based index is in the list. *)
Definition indexed_constraints (atoms : list (nat * OBAtom))
    (freeze_atoms : list PyVal) : list Z :=
  foldl (fun constraints '(index, _) =>
           let atom_id := Z.of_nat index + 1 in
           if py_in (PyInt atom_id) freeze_atoms
           then constraints ++ [atom_id]
           else constraints)
        [] atoms.

(** A search on the hydrogen molecule with every argument at its default. *)
Definition h2_search : outcome PyVal * World :=
  confm_search 0%nat "mmff94" None (1 / 2)%R 50%R 100000 false false false
    h2_world.

(** The same search with the first atom to be frozen:
    [confm_search(freeze_atoms=[1])]. *)
Definition h2_frozen_search : outcome PyVal * World :=
  confm_search 0%nat "mmff94" (Some [PyInt 1]) (1 / 2)%R 50%R 100000
    false false false h2_world.


(** ** Geometry optimisation through pybel *)

(** Modelled from the spec: pybel is not among the sources.
    [pb.Molecule(obmol).localopt(forcefield, steps)] works on the wrapped
    native molecule in place ("delegate to the toolkit's
    local-geometry-optimization routine"): the result of the call, and the
    molecule it leaves behind whether it returns or raises. *)
Class Pybel (tk : Toolkit) : Type := {
  Molecule_localopt : string -> Z -> OBMol tk -> outcome unit * OBMol tk
}.

Section Localopt.

Context {tk : Toolkit} {import_state : ImportState} {pybel : Pybel tk}.

(** [pbmol.localopt(forcefield=forcefield, steps=steps)] *)
Definition pbmol_localopt (pbmol : PybelMolecule) (forcefield : string)
    (steps : Z) : Py unit :=
  m <- deref (pbOBMol pbmol) ;;
  fun w => ((Molecule_localopt forcefield steps m).1,
            set_mol (pbOBMol pbmol) (Molecule_localopt forcefield steps m).2 w).

(** [BabelMolAdaptor.localopt] *)
Definition localopt (self : loc) (forcefield : string) (steps : Z) : Py PyVal :=
  module_attr "Molecule" ;;;
  obmol <- get_obmol self ;;
  pbmol <- pb_Molecule obmol ;;
  pbmol_localopt pbmol forcefield steps ;;;
  set_obmol self (pbOBMol pbmol) ;;;
  ret PyNone.

End Localopt.

(** ** Vocabulary for the further properties *)

Section Vocabulary.

Context {tk : Toolkit} {import_state : ImportState}.

(** [finishes m w Qret Qraise]: the world in which [m] ends satisfies
    [Qret] with the value returned, or [Qraise] with the exception raised. *)
Definition finishes {A} (m : Py A) (w : World) (Qret : A -> World -> Prop)
    (Qraise : PyExc -> World -> Prop) : Prop :=
  match m w with
  | (Ret a, w') => Qret a w'
  | (Raise e, w') => Qraise e w'
  end.

(** [w'] differs from [w] at most in the molecule that the adaptor [self]
    held in [w]: the adaptor objects are the same, no molecule has appeared
    or disappeared, and every molecule that [self] did not hold is as it
    was. *)
Definition touches_only_held (self : loc) (w w' : World) : Prop :=
  adaptors w' = adaptors w
  /\ dom (ob_heap w') = dom (ob_heap w)
  /\ forall r, adaptors w !! self <> Some {| _obmol := Some r |} ->
               ob_heap w' !! r = ob_heap w !! r.

(** Everything that exists in [w] exists unchanged in [w']. *)
Definition world_extends (w w' : World) : Prop :=
  (forall r m, ob_heap w !! r = Some m -> ob_heap w' !! r = Some m)
  /\ (forall a x, adaptors w !! a = Some x -> adaptors w' !! a = Some x).

(** The 1-based indices of the atoms an iteration yields. *)
Definition atom_ids (atoms : list (nat * OBAtom)) : list Z :=
  map (fun '(index, _) => Z.of_nat index + 1) atoms.

(** The molecule after the optional 3D build and hydrogen addition. *)
Definition after_prelude (make_3d add_hydrogens : bool) (m : OBMol tk) : OBMol tk :=
  let m := if make_3d then Build tk m else m in
  if add_hydrogens then AddHydrogens tk m else m.

(** The [SetConstraints] call of a search, if the freeze list is truthy. *)
Definition constraint_events (ff : string) (m : OBMol tk)
    (freeze_atoms : option (list PyVal)) : list Event :=
  match freeze_atoms with
  | Some (x :: l) =>
      [EvFF ff (OpSetConstraints
                  (freeze_constraints (imap (fun i a => (i, a)) (OBMolAtomIter tk m))
                     (x :: l)))]
  | _ => []
  end.

(** The lines a search prints when the force field is found at once. *)
Definition search_lines (freeze_atoms : option (list PyVal)) (verbose : bool)
    (found : nat) : list string :=
  match freeze_atoms with
  | Some (x :: l) => [pretty (length (x :: l)) +:+ " atoms will be freezed"]
  | _ => []
  end
  ++ (if verbose then ["Generated " +:+ pretty found +:+ " conformers total"]
      else []).

End Vocabulary.

(** ** Further example inputs *)

(** The import state of a process without OpenBabel. *)
Definition imports_failed : ImportState := false.

(** A pybel for the reference toolkit: the known force fields relax the
    molecule onto its centroid; any other name is an error and leaves the
    molecule alone. *)
Definition reference_pybel : Pybel Reference.toolkit :=
  {| Molecule_localopt := fun forcefield steps m =>
       if existsb (String.eqb forcefield) Reference.known_forcefields
       then (Ret tt, Reference.with_atoms center_atoms m)
       else (Raise (RuntimeError ("unknown forcefield " +:+ forcefield)), m) |}.

#[global] Existing Instance reference_pybel.

(** The world of an empty process without OpenBabel. *)
Definition unimported_world : @World Reference.toolkit :=
  {| ob_heap := ∅; ff_heap := ∅; adaptors := ∅; calls := []; stdout := [] |}.

(** The round trip of the hydrogen molecule: construct, then read back. *)
Definition h2_roundtrip : outcome Molecule * World :=
  bind (BabelMolAdaptor (PyMolecule h2_molecule)) pymatgen_mol empty_world.

(** The native molecule of an adaptor built from the water cation. *)
Definition water_cation_handle : outcome Reference.mol * World :=
  bind (BabelMolAdaptor (PyMolecule water_cation))
    (fun self => bind (openbabel_mol self) deref) empty_world.

(** A search on the hydrogen molecule with a force-field name that the
    reference toolkit does not know: [confm_search(forcefield="amber")]. *)
Definition h2_amber_search : outcome PyVal * World :=
  confm_search 0%nat "amber" None (1 / 2)%R 50%R 100000 false false false
    h2_world.

Section AdaptorProperties.

Context {tk : Toolkit} {import_state : ImportState}.

(** ** Running programs: one step at a time *)

Lemma bind_Ret {A B} (m : Py A) (k : A -> Py B) w a w1 :
  m w = (Ret a, w1) -> bind m k w = k a w1.
Proof. intros H. unfold bind. rewrite H. reflexivity. Qed.

Lemma bind_Raise {A B} (m : Py A) (k : A -> Py B) w e w1 :
  m w = (Raise e, w1) -> bind m k w = (Raise e, w1).
Proof. intros H. unfold bind. rewrite H. reflexivity. Qed.

Lemma module_attr_run attr w :
  imported = true -> module_attr attr w = (Ret tt, w).
Proof. intros H. unfold module_attr. rewrite H. reflexivity. Qed.

Lemma deref_run r m w : ob_heap w !! r = Some m -> deref r w = (Ret m, w).
Proof. intros H. unfold deref. rewrite H. reflexivity. Qed.

Lemma mol_call_run r op m w :
  ob_heap w !! r = Some m ->
  mol_call r op w = (Ret tt, add_call (EvMol r op) (set_mol r (run_mol_op op m) w)).
Proof.
  intros H. unfold mol_call.
  rewrite (bind_Ret _ _ _ _ _ (deref_run _ _ _ H)).
  reflexivity.
Qed.

Lemma new_OBMol_run w :
  imported = true ->
  let r := fresh (dom (ob_heap w)) in
  new_OBMol w = (Ret r, add_call (EvOBMol r) (set_mol r (OBMol_new tk) w)).
Proof.
  intros H r. unfold new_OBMol.
  rewrite (bind_Ret _ _ _ _ _ (module_attr_run _ _ H)).
  reflexivity.
Qed.

Lemma get_obmol_run self r w :
  adaptors w !! self = Some {| _obmol := Some r |} ->
  get_obmol self w = (Ret r, w).
Proof. intros H. unfold get_obmol. rewrite H. reflexivity. Qed.

Lemma get_obmol_missing self w :
  adaptors w !! self = Some {| _obmol := None |} ->
  get_obmol self w
  = (Raise (AttributeError "'BabelMolAdaptor' object has no attribute '_obmol'"), w).
Proof. intros H. unfold get_obmol. rewrite H. reflexivity. Qed.

Lemma fresh_mol_None w : ob_heap w !! fresh (dom (ob_heap w)) = None.
Proof. apply not_elem_of_dom, is_fresh. Qed.

Lemma fresh_adaptor_None w : adaptors w !! fresh (dom (adaptors w)) = None.
Proof. apply not_elem_of_dom, is_fresh. Qed.

(** ** Ordered molecules *)

Lemma specie_ordered site :
  site_is_ordered site = true -> exists sp, specie site = Ret sp.
Proof.
  unfold site_is_ordered, specie.
  destruct (species site) as [|[sp occu] [|]]; try discriminate.
  intros ->. eauto.
Qed.

Lemma is_ordered_sites mol :
  is_ordered mol = true -> Forall (fun s => site_is_ordered s = true) (sites mol).
Proof.
  unfold is_ordered. intros H. apply Forall_forall. intros s Hs.
  rewrite forallb_forall in H. apply H. by apply list_elem_of_In.
Qed.

Lemma disordered_site_not_ordered mol site :
  site ∈ sites mol -> site_is_ordered site = false -> is_ordered mol = false.
Proof.
  intros Hin Hs. destruct (is_ordered mol) eqn:E; [|reflexivity].
  apply is_ordered_sites in E. rewrite Forall_forall in E.
  specialize (E site Hin). congruence.
Qed.

(** ** The build loop *)

Lemma add_site_run obmol site m w :
  imported = true ->
  site_is_ordered site = true ->
  ob_heap w !! obmol = Some m ->
  add_site obmol site w
  = (Ret tt, add_call (EvMol obmol (OpAddAtom (site_atom site)))
               (set_mol obmol (AddAtom tk (site_atom site) m) w)).
Proof.
  intros Hi Ho Hm. unfold add_site, site_atom.
  destruct (specie_ordered _ Ho) as [sp Hsp]. rewrite Hsp.
  rewrite (bind_Ret _ _ w sp w) by reflexivity.
  rewrite (bind_Ret _ _ _ _ _ (module_attr_run _ _ Hi)).
  rewrite (mol_call_run _ _ _ _ Hm). reflexivity.
Qed.

Lemma for_each_add_site_run obmol l : forall m w,
  imported = true ->
  Forall (fun s => site_is_ordered s = true) l ->
  ob_heap w !! obmol = Some m ->
  for_each l (add_site obmol) w = (Ret tt, after_sites obmol l m w).
Proof.
  induction l as [|s l IH]; intros m w Hi Hl Hm.
  - simpl. unfold ret, after_sites. simpl. rewrite app_nil_r.
    rewrite (insert_id _ _ _ Hm). by destruct w.
  - inversion Hl as [|? ? Hs Hl']; subst. simpl.
    rewrite (bind_Ret _ _ _ _ _ (add_site_run _ _ _ _ Hi Hs Hm)).
    rewrite (IH (AddAtom tk (site_atom s) m)); [|done|done|].
    + unfold after_sites. simpl. rewrite insert_insert_eq.
      by rewrite <- app_assoc.
    + simpl. apply lookup_insert_eq.
Qed.

Lemma lookup_after_call r m e w :
  ob_heap (add_call e (set_mol r m w)) !! r = Some m.
Proof. simpl. apply lookup_insert_eq. Qed.

Lemma lookup_after_sites r l m w :
  ob_heap (after_sites r l m w) !! r
  = Some (foldl (fun m s => AddAtom tk (site_atom s) m) m l).
Proof. simpl. apply lookup_insert_eq. Qed.

(** Worlds are kept as record literals while a program is run. *)
Ltac world_norm :=
  unfold add_call, add_line, set_mol, set_ff, set_adaptor, after_sites;
  cbn [ob_heap ff_heap adaptors calls stdout run_mol_op run_ff_op].
Ltac py_step tac := erewrite bind_Ret; [| solve [tac] ]; world_norm.
Ltac py_lookup := cbn [ob_heap adaptors]; apply lookup_insert_eq.
Ltac py_call := py_step ltac:(apply mol_call_run; py_lookup).

(** ** The constructor *)

Lemma init_molecule_run self mol w :
  imported = true ->
  is_ordered mol = true ->
  let scratch := fresh (dom (ob_heap w)) in
  let heap := <[scratch := OBMol_new tk]> (ob_heap w) in
  let obmol := fresh (dom heap) in
  __init__ self (PyMolecule mol) w
  = (Ret tt,
     {| ob_heap := <[obmol := built_mol mol]> heap;
        ff_heap := ff_heap w;
        adaptors := <[self := {| _obmol := Some obmol |}]> (adaptors w);
        calls := calls w ++ [EvOBMol scratch; EvOBMol obmol] ++ build_events obmol mol;
        stdout := stdout w |}).
Proof.
  intros Hi Ho scratch heap obmol.
  unfold __init__, requires. rewrite Hi, Ho. cbn [negb].
  py_step ltac:(apply new_OBMol_run; exact Hi).
  py_step ltac:(apply new_OBMol_run; exact Hi).
  fold scratch. fold heap. fold obmol.
  py_call.
  py_step ltac:(apply for_each_add_site_run;
                [exact Hi | apply is_ordered_sites; exact Ho | py_lookup]).
  do 7 py_call.
  unfold set_obmol. world_norm.
  rewrite !insert_insert_eq.
  unfold built_mol, build_events.
  repeat rewrite <- app_assoc.
  reflexivity.
Qed.

Lemma BabelMolAdaptor_molecule_run mol w :
  imported = true ->
  is_ordered mol = true ->
  BabelMolAdaptor (PyMolecule mol) w
  = (Ret (fresh (dom (adaptors w))), after_construction mol w).
Proof.
  intros Hi Ho. unfold BabelMolAdaptor.
  rewrite (bind_Ret _ _ w (fresh (dom (adaptors w)))
             (set_adaptor (fresh (dom (adaptors w))) {| _obmol := None |} w))
    by reflexivity.
  py_step ltac:(apply init_molecule_run; [exact Hi | exact Ho]).
  unfold ret, after_construction.
  by rewrite insert_insert_eq.
Qed.

Lemma init_handle_run self r w :
  imported = true ->
  __init__ self (PyOBMol r) w = (Ret tt, set_adaptor self {| _obmol := Some r |} w).
Proof.
  intros Hi. unfold __init__, requires. rewrite Hi.
  py_step ltac:(apply module_attr_run; exact Hi).
  reflexivity.
Qed.

Lemma BabelMolAdaptor_handle_run r w :
  imported = true ->
  BabelMolAdaptor (PyOBMol r) w
  = (Ret (fresh (dom (adaptors w))),
     set_adaptor (fresh (dom (adaptors w))) {| _obmol := Some r |} w).
Proof.
  intros Hi. unfold BabelMolAdaptor.
  rewrite (bind_Ret _ _ w (fresh (dom (adaptors w)))
             (set_adaptor (fresh (dom (adaptors w))) {| _obmol := None |} w))
    by reflexivity.
  py_step ltac:(apply init_handle_run; exact Hi).
  unfold ret.
  by rewrite insert_insert_eq.
Qed.

(** ** Reading the atoms back *)

Lemma map_imap_snd {A B} (f : A -> B) (l : list A) :
  map (fun '(_, a) => f a) (imap (fun i a => (i, a)) l) = map f l.
Proof.
  assert (G : forall (g : nat -> nat) (l : list A),
             map (fun '(_, a) => f a) (imap (fun i a => (g i, a)) l) = map f l).
  { clear l. intros g l. revert g.
    induction l as [|a l IH]; intros g; simpl; [reflexivity|].
    f_equal. apply (IH (fun i => g (S i))). }
  apply (G (fun i => i)).
Qed.

Lemma vector_components a : (GetX a, GetY a, GetZ a) = vector a.
Proof. unfold GetX, GetY, GetZ. by destruct (vector a) as [[x y] z]. Qed.

Lemma pymatgen_mol_run self r m w :
  imported = true ->
  adaptors w !! self = Some {| _obmol := Some r |} ->
  ob_heap w !! r = Some m ->
  pymatgen_mol self w
  = (Ret (Molecule_new (map atomic_num (OBMolAtomIter tk m))
                       (map vector (OBMolAtomIter tk m))), w).
Proof.
  intros Hi Hs Hm. unfold pymatgen_mol, atom_iter.
  py_step ltac:(apply module_attr_run; exact Hi).
  py_step ltac:(apply get_obmol_run; exact Hs).
  rewrite (bind_Ret _ _ w (imap (fun i a => (i, a)) (OBMolAtomIter tk m)) w).
  2: { py_step ltac:(apply deref_run; exact Hm). reflexivity. }
  unfold ret. do 2 f_equal.
  rewrite (map_imap_snd GetAtomicNum).
  rewrite (map_imap_snd (fun a => (GetX a, GetY a, GetZ a))).
  f_equal. apply map_ext. intros a. apply vector_components.
Qed.

(** ** Atoms of the built molecule *)

Lemma atoms_foldl_AddAtom `{!AtomsContract tk} l : forall m,
  OBMolAtomIter tk (foldl (fun m s => AddAtom tk (site_atom s) m) m l)
  = OBMolAtomIter tk m ++ map site_atom l.
Proof.
  induction l as [|s l IH]; intros m; simpl.
  - by rewrite app_nil_r.
  - rewrite IH, atoms_AddAtom, <- app_assoc. reflexivity.
Qed.


Lemma building_foldl_AddAtom building `{!SessionContract tk building} l :
  forall m,
    building m ->
    building (foldl (fun m s => AddAtom tk (site_atom s) m) m l).
Proof.
  induction l as [|s l IH]; intros m Hm; [exact Hm|].
  cbn [foldl]. apply IH. by apply building_AddAtom.
Qed.

Lemma atoms_built_mol_in_session building `{!AtomsContract tk}
    `{!SessionContract tk building} mol :
  OBMolAtomIter tk (built_mol mol) = map site_atom (sites mol).
Proof.
  unfold built_mol.
  rewrite atoms_EndModify, atoms_Kekulize.
  rewrite (atoms_Center_building (building := building)).
  - rewrite atoms_SetTotalCharge, atoms_SetTotalSpinMultiplicity,
      atoms_PerceiveBondOrders, atoms_ConnectTheDots, atoms_foldl_AddAtom,
      atoms_BeginModify, atoms_OBMol_new.
    reflexivity.
  - apply building_SetTotalCharge, building_SetTotalSpinMultiplicity,
      building_PerceiveBondOrders, building_ConnectTheDots,
      (building_foldl_AddAtom building), building_BeginModify.
Qed.

Lemma vector_site_atoms l : map vector (map site_atom l) = map coords l.
Proof. by rewrite map_map. Qed.

Lemma specie_site_atom site :
  site_is_ordered site = true ->
  specie site = Ret {| specie_Z := atomic_num (site_atom site) |}.
Proof.
  intros Ho. destruct (specie_ordered _ Ho) as [[z] Hsp].
  unfold site_atom. rewrite Hsp. reflexivity.
Qed.

(** ** Molecules made of atomic numbers and coordinates *)

Lemma specie_ordered_site z c : specie (ordered_site z c) = Ret {| specie_Z := z |}.
Proof. reflexivity. Qed.

Lemma species_Molecule_new (atoms : list OBAtom) :
  species_sequence (Molecule_new (map atomic_num atoms) (map vector atoms))
  = map (fun a => Ret {| specie_Z := atomic_num a |}) atoms.
Proof.
  unfold species_sequence, Molecule_new. simpl.
  induction atoms as [|a l IH]; simpl; [reflexivity|]. by rewrite IH.
Qed.

Lemma coords_Molecule_new (atoms : list OBAtom) :
  coords_sequence (Molecule_new (map atomic_num atoms) (map vector atoms))
  = map vector atoms.
Proof.
  unfold coords_sequence, Molecule_new. simpl.
  induction atoms as [|a l IH]; simpl; [reflexivity|]. by rewrite IH.
Qed.

Lemma length_Molecule_new (atoms : list OBAtom) :
  length (sites (Molecule_new (map atomic_num atoms) (map vector atoms)))
  = length atoms.
Proof.
  unfold Molecule_new. simpl.
  induction atoms as [|a l IH]; simpl; [reflexivity|]. by rewrite IH.
Qed.

(** ** Rules for [returns] *)

Lemma returns_bind {A B} (m : Py A) (k : A -> Py B) w Q :
  returns m w (fun a w1 => returns (k a) w1 Q) -> returns (bind m k) w Q.
Proof.
  unfold returns, bind. destruct (m w) as [[a|e] w1]; [|done].
  by destruct (k a w1) as [[b|e] w2].
Qed.

Lemma returns_ret {A} (a : A) w (Q : A -> World -> Prop) :
  Q a w -> returns (ret a) w Q.
Proof. done. Qed.

Lemma returns_raise {A} e w (Q : A -> World -> Prop) : returns (raise e) w Q.
Proof. done. Qed.

Lemma returns_module_attr attr w (Q : unit -> World -> Prop) :
  Q tt w -> returns (module_attr attr) w Q.
Proof. unfold returns, module_attr. by destruct imported. Qed.

Lemma returns_get_obmol self w (Q : loc -> World -> Prop) :
  (forall r, adaptors w !! self = Some {| _obmol := Some r |} -> Q r w) ->
  returns (get_obmol self) w Q.
Proof.
  unfold returns, get_obmol. intros H.
  destruct (adaptors w !! self) as [[[r|]]|]; [|done|done].
  by apply H.
Qed.

Lemma returns_deref r w (Q : OBMol tk -> World -> Prop) :
  (forall m, ob_heap w !! r = Some m -> Q m w) -> returns (deref r) w Q.
Proof.
  unfold returns, deref. intros H.
  destruct (ob_heap w !! r) as [m|]; [|done]. by apply H.
Qed.

Lemma returns_mol_call r op w (Q : unit -> World -> Prop) :
  (forall m, ob_heap w !! r = Some m ->
             Q tt (add_call (EvMol r op) (set_mol r (run_mol_op op m) w))) ->
  returns (mol_call r op) w Q.
Proof.
  intros H. unfold returns. destruct (ob_heap w !! r) as [m|] eqn:E.
  - rewrite (mol_call_run _ _ _ _ E). by apply H.
  - unfold mol_call. rewrite (bind_Raise _ _ w (RuntimeError "invalid native handle") w).
    + done.
    + unfold deref. by rewrite E.
Qed.

Lemma returns_find_forcefield name w (Q : option string -> World -> Prop) :
  Q (OBForceField_FindType tk name)
    (add_call (EvFindType name (OBForceField_FindType tk name)) w) ->
  returns (find_forcefield name) w Q.
Proof.
  intros H. unfold returns, find_forcefield, bind, module_attr.
  by destruct imported.
Qed.

Lemma returns_ff_call ff method op w (Q : unit -> World -> Prop) :
  (forall name, ff = Some name ->
     Q tt (add_call (EvFF name op)
             (set_ff name (run_ff_op op (ff_state name w)) w))) ->
  returns (ff_call ff method op) w Q.
Proof. intros H. destruct ff as [name|]; [|done]. by apply H. Qed.

Lemma returns_ff_GetConformers ff r w (Q : unit -> World -> Prop) :
  (forall name m, ff = Some name -> ob_heap w !! r = Some m ->
     Q tt (add_call (EvGetConformers name r)
             (set_mol r (GetConformers tk (ff_state name w) m) w))) ->
  returns (ff_GetConformers ff r) w Q.
Proof.
  intros H. destruct ff as [name|]; [|done]. simpl.
  apply returns_bind, returns_deref. intros m Hm.
  by apply (H name m).
Qed.

Lemma returns_print line w (Q : unit -> World -> Prop) :
  Q tt (add_line line w) -> returns (print line) w Q.
Proof. done. Qed.

Lemma returns_set_obmol self r w (Q : unit -> World -> Prop) :
  Q tt (set_adaptor self {| _obmol := Some r |} w) ->
  returns (set_obmol self r) w Q.
Proof. done. Qed.

Lemma returns_elim {A} (m : Py A) w Q a w' :
  returns m w Q -> m w = (Ret a, w') -> Q a w'.
Proof. unfold returns. intros H E. by rewrite E in H. Qed.

Lemma ff_state_after_call name e f w :
  ff_state name (add_call e (set_ff name f w)) = f.
Proof. unfold ff_state. simpl. by rewrite lookup_insert_eq. Qed.

Ltac wp_step :=
  lazymatch goal with
  | |- returns (bind _ _) _ _ => apply returns_bind
  | |- returns (ret _) _ _ => apply returns_ret
  | |- returns (raise _) _ _ => apply returns_raise
  | |- returns (module_attr _) _ _ => apply returns_module_attr
  | |- returns (get_obmol _) _ _ => apply returns_get_obmol; intros ? ?
  | |- returns (deref _) _ _ => apply returns_deref; intros ? ?
  | |- returns (mol_call _ _) _ _ => apply returns_mol_call; intros ? ?
  | |- returns (find_forcefield _) _ _ => apply returns_find_forcefield
  | |- returns (ff_call _ _ _) _ _ => apply returns_ff_call; intros ? ?
  | |- returns (ff_GetConformers _ _) _ _ =>
      apply returns_ff_GetConformers; intros ? ? ? ?
  | |- returns (print _) _ _ => apply returns_print
  | |- returns (set_obmol _ _) _ _ => apply returns_set_obmol
  end.

Ltac wp_case :=
  lazymatch goal with
  | |- returns (match ?x with _ => _ end) _ _ => destruct x eqn:?
  end.

(** Readings of a place that was just written, and two readings of one
    place, are resolved as soon as they appear. *)
Ltac hyps_norm :=
  cbn [ob_heap adaptors ff_heap] in *;
  repeat match goal with
         | H : <[?k:=_]> _ !! ?k = Some _ |- _ => rewrite lookup_insert_eq in H
         | H : Some _ = Some _ |- _ => injection H as <-
         | H1 : ?x = Some ?a, H2 : ?x = Some ?b |- _ => rewrite H1 in H2
         end.

Ltac ff_norm :=
  unfold ff_state; cbn [ff_heap]; rewrite ?lookup_insert_eq;
  cbn [default from_option id].

Ltac wp := first [wp_step | wp_case]; world_norm; hyps_norm; ff_norm.

Lemma confm_search_returns self forcefield freeze_atoms rmsd_cutoff
    energy_cutoff conf_cutoff verbose make_3d add_hydrogens w :
  returns
    (confm_search self forcefield freeze_atoms rmsd_cutoff energy_cutoff
       conf_cutoff verbose make_3d add_hydrogens) w
    (fun res w' =>
       res = PyNone
       /\ exists obmol f m,
            adaptors w !! self = Some {| _obmol := Some obmol |}
            /\ adaptors w' = adaptors w
            /\ ob_heap w' !! obmol
               = Some (GetConformers tk
                         (DiverseConfGen tk rmsd_cutoff conf_cutoff energy_cutoff
                            verbose (WeightedRotorSearch tk 500 25 f)) m)).
Proof.
  unfold confm_search, openbabel_mol, atom_iter.
  repeat wp.
  all: split; [reflexivity|].
  all: eexists _, _, _; split; [eassumption|].
  all: split; [by apply insert_id|].
  all: by rewrite lookup_insert_eq.
Qed.

(** ** Running [confm_search] to its end *)

Lemma find_forcefield_run name w :
  imported = true ->
  find_forcefield name w
  = (Ret (OBForceField_FindType tk name),
     add_call (EvFindType name (OBForceField_FindType tk name)) w).
Proof.
  intros Hi. unfold find_forcefield.
  rewrite (bind_Ret _ _ _ _ _ (module_attr_run _ _ Hi)).
  reflexivity.
Qed.

Lemma ff_call_run name method op w :
  ff_call (Some name) method op w
  = (Ret tt, add_call (EvFF name op)
               (set_ff name (run_ff_op op (ff_state name w)) w)).
Proof. reflexivity. Qed.

Lemma ff_GetConformers_run name r m w :
  ob_heap w !! r = Some m ->
  ff_GetConformers (Some name) r w
  = (Ret tt, add_call (EvGetConformers name r)
               (set_mol r (GetConformers tk (ff_state name w) m) w)).
Proof.
  intros Hm. unfold ff_GetConformers.
  rewrite (bind_Ret _ _ _ _ _ (deref_run _ _ _ Hm)).
  reflexivity.
Qed.

Lemma atom_iter_run r m w :
  ob_heap w !! r = Some m ->
  atom_iter r w = (Ret (imap (fun i a => (i, a)) (OBMolAtomIter tk m)), w).
Proof.
  intros Hm. unfold atom_iter.
  rewrite (bind_Ret _ _ _ _ _ (deref_run _ _ _ Hm)).
  reflexivity.
Qed.

Ltac py_find :=
  cbn [ob_heap adaptors]; first [eassumption | apply lookup_insert_eq].

(** What is known of the force-field lookups is used where they occur. *)
Ltac ff_known :=
  repeat match goal with
         | H : OBForceField_FindType _ ?n = _
           |- context [OBForceField_FindType _ ?n] => rewrite H
         end.

(** Runs a program whose every step succeeds. *)
Ltac py_solve :=
  cbv beta iota; ff_known;
  lazymatch goal with
  | |- bind _ _ _ = _ =>
      erewrite bind_Ret; [| solve [py_solve] ]; world_norm; ff_norm; py_solve
  | |- module_attr _ _ = _ => apply module_attr_run; assumption
  | |- mol_call _ _ _ = _ => apply mol_call_run; py_find
  | |- deref _ _ = _ => apply deref_run; py_find
  | |- get_obmol _ _ = _ => apply get_obmol_run; py_find
  | |- openbabel_mol _ _ = _ => apply get_obmol_run; py_find
  | |- atom_iter _ _ = _ => apply atom_iter_run; py_find
  | |- find_forcefield _ _ = _ => apply find_forcefield_run; assumption
  | |- ff_call (Some _) _ _ _ = _ => apply ff_call_run
  | |- ff_GetConformers (Some _) _ _ = _ => apply ff_GetConformers_run; py_find
  | |- _ => reflexivity
  end.

(** C9: every call of [confm_search] that completes evaluates to [None];
    the adaptor's attribute holds the same handle as before (no other
    adaptor is touched), and that handle now carries the conformers which
    the force field's search produced. *)
Theorem confm_search_returns_None self forcefield freeze_atoms rmsd_cutoff
    energy_cutoff conf_cutoff verbose make_3d add_hydrogens w res w'
    (Hrun : confm_search self forcefield freeze_atoms rmsd_cutoff energy_cutoff
              conf_cutoff verbose make_3d add_hydrogens w = (Ret res, w')) :
  res = PyNone
  /\ exists obmol f m,
       adaptors w !! self = Some {| _obmol := Some obmol |}
       /\ adaptors w' = adaptors w
       /\ ob_heap w' !! obmol
          = Some (GetConformers tk
                    (DiverseConfGen tk rmsd_cutoff conf_cutoff energy_cutoff
                       verbose (WeightedRotorSearch tk 500 25 f)) m).
Proof.
  exact (returns_elim _ _ _ _ _
           (confm_search_returns self forcefield freeze_atoms rmsd_cutoff
              energy_cutoff conf_cutoff verbose make_3d add_hydrogens w) Hrun).
Qed.

(** ** The constructor on its three kinds of input *)

(** C3: a structural molecule with at least one site that has no single
    definite species is rejected: the constructor raises [ValueError] (the
    specification's InvalidInputError); no native molecule has been created
    and no toolkit call made, and the adaptor object under construction has
    no [_obmol] attribute. *)
Theorem disordered_molecule_rejected mol site w
    (Hi : imported = true)
    (Hin : site ∈ sites mol)
    (Hsite : site_is_ordered site = false) :
  exists w',
    BabelMolAdaptor (PyMolecule mol) w
    = (Raise (ValueError "OpenBabel Molecule only supports ordered molecules."), w')
    /\ ob_heap w' = ob_heap w
    /\ calls w' = calls w
    /\ adaptors w' = <[fresh (dom (adaptors w)) := {| _obmol := None |}]> (adaptors w).
Proof.
  pose proof (disordered_site_not_ordered _ _ Hin Hsite) as Ho.
  eexists. split.
  - unfold BabelMolAdaptor.
    rewrite (bind_Ret _ _ w (fresh (dom (adaptors w)))
               (set_adaptor (fresh (dom (adaptors w))) {| _obmol := None |} w))
      by reflexivity.
    erewrite bind_Raise; [reflexivity|].
    unfold __init__, requires. rewrite Hi, Ho. reflexivity.
  - done.
Qed.

(** C10: for an input that is neither a structural molecule nor a native
    molecule, the constructor returns without raising; the adaptor has no
    [_obmol] attribute (and nothing was created in the toolkit), so
    [pymatgen_mol], [openbabel_mol], [pybel_mol] and [confm_search] all fail
    on the missing attribute. *)
Theorem other_input_leaves_no_handle v w (Hi : imported = true) :
  let self := fresh (dom (adaptors w)) in
  let missing :=
    AttributeError "'BabelMolAdaptor' object has no attribute '_obmol'" in
  exists w',
    BabelMolAdaptor (PyOther v) w = (Ret self, w')
    /\ adaptors w' !! self = Some {| _obmol := None |}
    /\ ob_heap w' = ob_heap w
    /\ calls w' = calls w
    /\ pymatgen_mol self w' = (Raise missing, w')
    /\ openbabel_mol self w' = (Raise missing, w')
    /\ pybel_mol self w' = (Raise missing, w')
    /\ forall forcefield freeze_atoms rmsd_cutoff energy_cutoff conf_cutoff
         verbose make_3d add_hydrogens,
         confm_search self forcefield freeze_atoms rmsd_cutoff energy_cutoff
           conf_cutoff verbose make_3d add_hydrogens w' = (Raise missing, w').
Proof.
  intros self missing.
  exists (set_adaptor self {| _obmol := None |} w).
  assert (Hself : adaptors (set_adaptor self {| _obmol := None |} w) !! self
                  = Some {| _obmol := None |}) by apply lookup_insert_eq.
  pose proof (get_obmol_missing _ _ Hself) as Hget.
  repeat split; try done.
  - unfold BabelMolAdaptor.
    rewrite (bind_Ret _ _ w self (set_adaptor self {| _obmol := None |} w))
      by reflexivity.
    erewrite bind_Ret; [reflexivity|].
    unfold __init__, requires. rewrite Hi.
    erewrite bind_Ret; [reflexivity|]. by apply module_attr_run.
  - unfold pymatgen_mol.
    rewrite (bind_Ret _ _ _ _ _ (module_attr_run _ _ Hi)).
    by rewrite (bind_Raise _ _ _ _ _ Hget).
  - unfold pybel_mol.
    rewrite (bind_Ret _ _ _ _ _ (module_attr_run _ _ Hi)).
    by rewrite (bind_Raise _ _ _ _ _ Hget).
  - intros. unfold confm_search, openbabel_mol.
    by rewrite (bind_Raise _ _ _ _ _ Hget).
Qed.


(** C8: [openbabel_mol] returns the handle stored in the adaptor and
    nothing else happens (no molecule is created or copied); a mutation made
    through the returned reference is a mutation of the adaptor's molecule,
    as the adaptor's next [pymatgen_mol] shows. *)
Theorem openbabel_mol_is_the_held_handle self obmol m w
    (Hi : imported = true)
    (Hself : adaptors w !! self = Some {| _obmol := Some obmol |})
    (Hm : ob_heap w !! obmol = Some m) :
  openbabel_mol self w = (Ret obmol, w)
  /\ forall op,
       exists w',
         bind (openbabel_mol self) (fun handle => mol_call handle op) w
         = (Ret tt, w')
         /\ adaptors w' !! self = Some {| _obmol := Some obmol |}
         /\ ob_heap w' !! obmol = Some (run_mol_op op m)
         /\ dom (ob_heap w') = dom (ob_heap w)
         /\ pymatgen_mol self w'
            = (Ret (Molecule_new
                      (map atomic_num (OBMolAtomIter tk (run_mol_op op m)))
                      (map vector (OBMolAtomIter tk (run_mol_op op m)))), w').
Proof.
  split; [by apply get_obmol_run|].
  intros op. eexists. split.
  { rewrite (bind_Ret _ _ _ _ _ (get_obmol_run _ _ _ Hself)).
    by apply mol_call_run. }
  split; [done|].
  split; [apply lookup_insert_eq|].
  split.
  { cbn [add_call set_mol ob_heap]. by apply dom_insert_lookup_L. }
  eapply pymatgen_mol_run; [exact Hi|exact Hself|apply lookup_insert_eq].
Qed.

(** ** Reading molecules *)

Lemma alloc_all_run ms : forall w,
  exists rs w',
    alloc_all ms w = (Ret rs, w')
    /\ adaptors w' = adaptors w
    /\ calls w' = calls w
    /\ (forall r m, ob_heap w !! r = Some m -> ob_heap w' !! r = Some m)
    /\ match ms, rs with
       | [], [] => True
       | first :: _, r :: _ => ob_heap w' !! r = Some first
       | _, _ => False
       end.
Proof.
  induction ms as [|m ms IH]; intros w.
  - exists [], w. by repeat split.
  - set (r := fresh (dom (ob_heap w))).
    destruct (IH (set_mol r m w)) as (rs & w' & Hrun & Ha & Hc & Hkeep & _).
    exists (r :: rs), w'. split.
    { cbn [alloc_all].
      rewrite (bind_Ret _ _ w r (set_mol r m w)) by reflexivity.
      rewrite (bind_Ret _ _ _ _ _ Hrun). reflexivity. }
    split; [done|]. split; [done|]. split.
    + intros r' m' Hr'. apply Hkeep. cbn [set_mol ob_heap].
      rewrite lookup_insert_ne; [done|].
      intros <-. pose proof (fresh_mol_None w) as Hf. fold r in Hf. congruence.
    + apply Hkeep. apply lookup_insert_eq.
Qed.

(** C4: [from_file] and [from_string] raise when the converter reads no
    molecule ([IndexError] on the empty list, respectively pybel's
    [IOError]) and no adaptor is made; when it reads at least one molecule
    the adaptor returned holds a handle to the first molecule read; an error
    of the converter itself is passed on. *)
Theorem readers_take_first_or_fail filename string_data file_format w
    (Hi : imported = true) :
  match ReadFile tk file_format filename with
  | Ret [] =>
      exists w',
        from_file filename file_format w
        = (Raise (IndexError "list index out of range"), w')
        /\ adaptors w' = adaptors w
  | Ret (first :: _) =>
      exists self obmol w',
        from_file filename file_format w = (Ret self, w')
        /\ adaptors w' !! self = Some {| _obmol := Some obmol |}
        /\ ob_heap w' !! obmol = Some first
  | Raise e => from_file filename file_format w = (Raise e, w)
  end
  /\ match ReadString tk file_format string_data with
     | Ret [] =>
         exists msg,
           from_string string_data file_format w = (Raise (IOError msg), w)
     | Ret (first :: _) =>
         exists self obmol w',
           from_string string_data file_format w = (Ret self, w')
           /\ adaptors w' !! self = Some {| _obmol := Some obmol |}
           /\ ob_heap w' !! obmol = Some first
     | Raise e => from_string string_data file_format w = (Raise e, w)
     end.
Proof.
  split.
  - unfold from_file, pb_readfile.
    destruct (ReadFile tk file_format filename) as [ms|e] eqn:Hread.
    + destruct (alloc_all_run ms w) as (rs & w1 & Hrun & Ha & Hc & Hkeep & Hfirst).
      assert (Hpb :
        (module_attr "readfile" ;;;
         ms <- lift (Ret ms) ;; rs <- alloc_all ms ;;
         log (EvRead rs) ;;; ret (map (fun r => {| pbOBMol := r |}) rs)) w
        = (Ret (map (fun r => {| pbOBMol := r |}) rs), add_call (EvRead rs) w1)).
      { rewrite (bind_Ret _ _ _ _ _ (module_attr_run _ _ Hi)).
        rewrite (bind_Ret _ _ w ms w) by reflexivity.
        rewrite (bind_Ret _ _ _ _ _ Hrun). reflexivity. }
      rewrite (bind_Ret _ _ _ _ _ Hpb).
      destruct ms as [|first ms], rs as [|r rs]; try done.
      * eexists. split; [reflexivity|]. exact Ha.
      * cbn [map pbOBMol]. eexists _, r, _.
        split; [by apply BabelMolAdaptor_handle_run|].
        split; [apply lookup_insert_eq|]. exact Hfirst.
    + erewrite bind_Raise; [reflexivity|].
      rewrite (bind_Ret _ _ _ _ _ (module_attr_run _ _ Hi)).
      reflexivity.
  - unfold from_string, pb_readstring.
    destruct (ReadString tk file_format string_data) as [[|first ms]|e] eqn:Hread.
    + eexists. erewrite bind_Raise; [reflexivity|].
      rewrite (bind_Ret _ _ _ _ _ (module_attr_run _ _ Hi)).
      rewrite (bind_Ret _ _ w [] w) by reflexivity. reflexivity.
    + set (r := fresh (dom (ob_heap w))).
      assert (Hpb :
        (module_attr "readstring" ;;;
         ms <- lift (Ret (first :: ms)) ;;
         match ms with
         | [] => raise (IOError ("Failed to convert '" +:+ string_data
                                 +:+ "' to format '" +:+ file_format +:+ "'"))
         | m :: _ => r <- alloc_mol m ;; log (EvRead [r]) ;;; ret {| pbOBMol := r |}
         end) w
        = (Ret {| pbOBMol := r |}, add_call (EvRead [r]) (set_mol r first w))).
      { rewrite (bind_Ret _ _ _ _ _ (module_attr_run _ _ Hi)).
        rewrite (bind_Ret _ _ w (first :: ms) w) by reflexivity.
        reflexivity. }
      rewrite (bind_Ret _ _ _ _ _ Hpb). cbn [pbOBMol].
      eexists _, r, _.
      split; [by apply BabelMolAdaptor_handle_run|].
      split; apply lookup_insert_eq.
    + erewrite bind_Raise; [reflexivity|].
      rewrite (bind_Ret _ _ _ _ _ (module_attr_run _ _ Hi)).
      reflexivity.
Qed.

(** ** The freeze list *)

Lemma py_in_builtin_ints name (indices : list Z) :
  py_in (PyBuiltin name) (map PyInt indices) = false.
Proof. unfold py_in. induction indices as [|n l IH]; [reflexivity|exact IH]. Qed.

Lemma freeze_constraints_skip atoms freeze_atoms :
  py_in (PyBuiltin "id") freeze_atoms = false ->
  freeze_constraints atoms freeze_atoms = [].
Proof.
  intros Hin. unfold freeze_constraints. rewrite Hin.
  induction atoms as [|[index atom] l IH]; [reflexivity|exact IH].
Qed.

Lemma freeze_constraints_indices atoms (indices : list Z) :
  freeze_constraints atoms (map PyInt indices) = [].
Proof. apply freeze_constraints_skip, py_in_builtin_ints. Qed.


(** * Further properties *)

(** ** Without OpenBabel *)

(** X1: when the import of OpenBabel failed, the constructor raises the
    [RuntimeError] of [requires] for every input, whatever its kind and
    before the order check; no native molecule is created and no toolkit
    call is made. *)
Theorem constructor_requires_openbabel mol w (Hfail : imported = false) :
  exists w',
    BabelMolAdaptor mol w
    = (Raise (RuntimeError
                ("BabelMolAdaptor requires openbabel to be installed with "
                 +:+ "Python bindings. Please get it at http://openbabel.org.")),
       w')
    /\ ob_heap w' = ob_heap w
    /\ calls w' = calls w
    /\ adaptors w' !! fresh (dom (adaptors w)) = Some {| _obmol := None |}.
Proof.
  eexists. split.
  - unfold BabelMolAdaptor.
    rewrite (bind_Ret _ _ w (fresh (dom (adaptors w)))
               (set_adaptor (fresh (dom (adaptors w))) {| _obmol := None |} w))
      by reflexivity.
    erewrite bind_Raise; [reflexivity|].
    unfold __init__, requires. rewrite Hfail. reflexivity.
  - split; [reflexivity|]. split; [reflexivity|]. apply lookup_insert_eq.
Qed.

(** X2: [from_file] and [from_string] are not guarded by [requires]: when
    the import failed they fail on the [None] that stands for pybel, with an
    [AttributeError] instead of the constructor's [RuntimeError]; nothing is
    read and no adaptor object is made. *)
Theorem readers_fail_on_missing_pybel filename string_data file_format w
    (Hfail : imported = false) :
  (exists msg, from_file filename file_format w = (Raise (AttributeError msg), w))
  /\ (exists msg,
        from_string string_data file_format w = (Raise (AttributeError msg), w)).
Proof.
  split; eexists.
  - unfold from_file, pb_readfile.
    erewrite bind_Raise; [reflexivity|].
    erewrite bind_Raise; [reflexivity|].
    unfold module_attr. rewrite Hfail. reflexivity.
  - unfold from_string, pb_readstring.
    erewrite bind_Raise; [reflexivity|].
    erewrite bind_Raise; [reflexivity|].
    unfold module_attr. rewrite Hfail. reflexivity.
Qed.

(** ** The constraint loop *)

Lemma freeze_constraints_from acc atoms freeze_atoms :
  foldl (fun constraints '(index, _) =>
           let atom_id := Z.of_nat index + 1 in
           if py_in (PyBuiltin "id") freeze_atoms
           then constraints ++ [atom_id]
           else constraints)
        acc atoms
  = acc ++ (if py_in (PyBuiltin "id") freeze_atoms then atom_ids atoms else []).
Proof.
  revert acc. induction atoms as [|[index atom] l IH]; intros acc.
  - cbn. destruct (py_in _ _); by rewrite app_nil_r.
  - cbn [foldl]. rewrite (IH _). unfold atom_ids.
    destruct (py_in (PyBuiltin "id") freeze_atoms).
    + cbn [map]. by rewrite <- app_assoc.
    + by rewrite !app_nil_r.
Qed.

(** X9: the constraint loop is all or nothing.  The membership test does
    not mention the atom, so the constraint set is every atom of the
    molecule when the freeze list contains the builtin [id], and empty
    otherwise; which indices the list holds never matters. *)
Theorem freeze_constraints_all_or_nothing (atoms : list (nat * OBAtom))
    (freeze_atoms : list PyVal) :
  freeze_constraints atoms freeze_atoms
  = if py_in (PyBuiltin "id") freeze_atoms then atom_ids atoms else [].
Proof. unfold freeze_constraints. by rewrite freeze_constraints_from. Qed.

(** ** Reading a held molecule *)

Lemma is_ordered_Molecule_new sp cs : is_ordered (Molecule_new sp cs) = true.
Proof.
  unfold is_ordered, Molecule_new. cbn [sites].
  revert cs. induction sp as [|z sp IH]; intros [|c cs]; try reflexivity.
  cbn. apply IH.
Qed.

(** X5: on an adaptor that holds a live handle, [pymatgen_mol] changes
    nothing and returns a molecule with one site per native atom, in native
    order, each with the atom's atomic number as its single species and the
    atom's position; the molecule is ordered, whatever the handle holds. *)
Theorem pymatgen_mol_reads_every_atom self obmol m w
    (Hi : imported = true)
    (Hself : adaptors w !! self = Some {| _obmol := Some obmol |})
    (Hm : ob_heap w !! obmol = Some m) :
  exists mol',
    pymatgen_mol self w = (Ret mol', w)
    /\ length (sites mol') = length (OBMolAtomIter tk m)
    /\ species_sequence mol'
       = map (fun a => Ret {| specie_Z := atomic_num a |}) (OBMolAtomIter tk m)
    /\ coords_sequence mol' = map vector (OBMolAtomIter tk m)
    /\ is_ordered mol' = true.
Proof.
  eexists. split; [by eapply pymatgen_mol_run|].
  split; [apply length_Molecule_new|].
  split; [apply species_Molecule_new|].
  split; [apply coords_Molecule_new|].
  apply is_ordered_Molecule_new.
Qed.

(** ** Adopting a handle *)

(** X3: an adaptor built from another adaptor's [openbabel_mol] is a new
    object holding the same native molecule: nothing is created or called in
    the toolkit, and after any mutating call on that molecule both adaptors
    read the same, changed, molecule. *)
Theorem adopted_handle_is_shared first obmol m w
    (Hi : imported = true)
    (Hself : adaptors w !! first = Some {| _obmol := Some obmol |})
    (Hm : ob_heap w !! obmol = Some m) :
  exists second w',
    bind (openbabel_mol first) (fun handle => BabelMolAdaptor (PyOBMol handle)) w
    = (Ret second, w')
    /\ second <> first
    /\ adaptors w' !! first = Some {| _obmol := Some obmol |}
    /\ adaptors w' !! second = Some {| _obmol := Some obmol |}
    /\ ob_heap w' = ob_heap w
    /\ calls w' = calls w
    /\ forall op,
         exists w'',
           mol_call obmol op w' = (Ret tt, w'')
           /\ pymatgen_mol first w'' = pymatgen_mol second w''
           /\ pymatgen_mol second w''
              = (Ret (Molecule_new
                        (map atomic_num (OBMolAtomIter tk (run_mol_op op m)))
                        (map vector (OBMolAtomIter tk (run_mol_op op m)))), w'').
Proof.
  set (second := fresh (dom (adaptors w))).
  assert (Hne : second <> first).
  { intros E. pose proof (fresh_adaptor_None w) as Hf. fold second in Hf.
    rewrite E in Hf. congruence. }
  exists second, (set_adaptor second {| _obmol := Some obmol |} w).
  split.
  { rewrite (bind_Ret _ _ _ _ _ (get_obmol_run _ _ _ Hself)).
    by apply BabelMolAdaptor_handle_run. }
  split; [exact Hne|].
  split; [cbn [set_adaptor adaptors]; by rewrite lookup_insert_ne|].
  split; [apply lookup_insert_eq|].
  split; [reflexivity|]. split; [reflexivity|].
  intros op. eexists. split; [by apply mol_call_run|].
  assert (H1 : forall a, adaptors
                 (add_call (EvMol obmol op)
                    (set_mol obmol (run_mol_op op m)
                       (set_adaptor second {| _obmol := Some obmol |} w))) !! a
               = Some {| _obmol := Some obmol |} ->
               pymatgen_mol a
                 (add_call (EvMol obmol op)
                    (set_mol obmol (run_mol_op op m)
                       (set_adaptor second {| _obmol := Some obmol |} w)))
               = (Ret (Molecule_new
                         (map atomic_num (OBMolAtomIter tk (run_mol_op op m)))
                         (map vector (OBMolAtomIter tk (run_mol_op op m)))),
                  add_call (EvMol obmol op)
                    (set_mol obmol (run_mol_op op m)
                       (set_adaptor second {| _obmol := Some obmol |} w)))).
  { intros a Ha. eapply pymatgen_mol_run; [exact Hi|exact Ha|].
    apply lookup_insert_eq. }
  rewrite (H1 first), (H1 second); [done| |].
  - apply lookup_insert_eq.
  - cbn [add_call set_mol set_adaptor adaptors]. by rewrite lookup_insert_ne.
Qed.

(** ** The constructor and what already exists *)

Lemma BabelMolAdaptor_not_imported_run mol w :
  imported = false ->
  BabelMolAdaptor mol w
  = (Raise (RuntimeError
              ("BabelMolAdaptor requires openbabel to be installed with "
               +:+ "Python bindings. Please get it at http://openbabel.org.")),
     set_adaptor (fresh (dom (adaptors w))) {| _obmol := None |} w).
Proof.
  intros Hfail. unfold BabelMolAdaptor.
  rewrite (bind_Ret _ _ w (fresh (dom (adaptors w)))
             (set_adaptor (fresh (dom (adaptors w))) {| _obmol := None |} w))
    by reflexivity.
  erewrite bind_Raise; [reflexivity|].
  unfold __init__, requires. rewrite Hfail. reflexivity.
Qed.

Lemma BabelMolAdaptor_disordered_run mol w :
  imported = true ->
  is_ordered mol = false ->
  BabelMolAdaptor (PyMolecule mol) w
  = (Raise (ValueError "OpenBabel Molecule only supports ordered molecules."),
     set_adaptor (fresh (dom (adaptors w))) {| _obmol := None |} w).
Proof.
  intros Hi Ho. unfold BabelMolAdaptor.
  rewrite (bind_Ret _ _ w (fresh (dom (adaptors w)))
             (set_adaptor (fresh (dom (adaptors w))) {| _obmol := None |} w))
    by reflexivity.
  erewrite bind_Raise; [reflexivity|].
  unfold __init__, requires. rewrite Hi, Ho. reflexivity.
Qed.

Lemma BabelMolAdaptor_other_run v w :
  imported = true ->
  BabelMolAdaptor (PyOther v) w
  = (Ret (fresh (dom (adaptors w))),
     set_adaptor (fresh (dom (adaptors w))) {| _obmol := None |} w).
Proof.
  intros Hi. unfold BabelMolAdaptor.
  rewrite (bind_Ret _ _ w (fresh (dom (adaptors w)))
             (set_adaptor (fresh (dom (adaptors w))) {| _obmol := None |} w))
    by reflexivity.
  erewrite bind_Ret; [reflexivity|].
  unfold __init__, requires. rewrite Hi.
  erewrite bind_Ret; [reflexivity|]. by apply module_attr_run.
Qed.

Lemma world_extends_new_adaptor a w :
  world_extends w (set_adaptor (fresh (dom (adaptors w))) a w).
Proof.
  split; [done|]. intros b x Hb. cbn [set_adaptor adaptors].
  rewrite lookup_insert_ne; [done|].
  intros E. pose proof (fresh_adaptor_None w) as Hf. rewrite E in Hf. congruence.
Qed.

Lemma fresh_after_scratch_None w :
  ob_heap w !! fresh (dom (<[fresh (dom (ob_heap w)) := OBMol_new tk]> (ob_heap w)))
  = None.
Proof.
  set (scratch := fresh (dom (ob_heap w))).
  set (obmol := fresh (dom (<[scratch := OBMol_new tk]> (ob_heap w)))).
  assert (Hf : <[scratch := OBMol_new tk]> (ob_heap w) !! obmol = None)
    by apply not_elem_of_dom, is_fresh.
  destruct (decide (scratch = obmol)) as [E|Hne].
  - rewrite <- E. apply fresh_mol_None.
  - by rewrite lookup_insert_ne in Hf.
Qed.

Lemma world_extends_after_construction mol w :
  world_extends w (after_construction mol w).
Proof.
  unfold after_construction. split; cbn [ob_heap adaptors].
  - intros r m Hr.
    rewrite !lookup_insert_ne; [exact Hr| |].
    + intros E. pose proof (fresh_mol_None w) as Hf. rewrite E in Hf. congruence.
    + intros E. pose proof (fresh_after_scratch_None w) as Hf.
      rewrite E in Hf. congruence.
  - intros a x Ha. rewrite lookup_insert_ne; [exact Ha|].
    intros E. pose proof (fresh_adaptor_None w) as Hf. rewrite E in Hf. congruence.
Qed.

(** X4: whatever the input and whether the constructor returns or raises,
    every native molecule and every adaptor that existed before is left as
    it was.  When it returns, the adaptor is a new object: built from a
    structural molecule it holds a handle that did not exist before; built
    from a handle it holds that handle and the toolkit's molecules are
    untouched; built from anything else it holds none. *)
Theorem constructor_leaves_the_rest mol w :
  world_extends w (BabelMolAdaptor mol w).2
  /\ forall self,
       (BabelMolAdaptor mol w).1 = Ret self ->
       adaptors w !! self = None
       /\ match mol with
          | PyMolecule _ =>
              exists obmol,
                adaptors (BabelMolAdaptor mol w).2 !! self
                = Some {| _obmol := Some obmol |}
                /\ ob_heap w !! obmol = None
          | PyOBMol handle =>
              adaptors (BabelMolAdaptor mol w).2 !! self
              = Some {| _obmol := Some handle |}
              /\ ob_heap (BabelMolAdaptor mol w).2 = ob_heap w
          | PyOther _ =>
              adaptors (BabelMolAdaptor mol w).2 !! self
              = Some {| _obmol := None |}
              /\ ob_heap (BabelMolAdaptor mol w).2 = ob_heap w
          end.
Proof.
  destruct imported eqn:Hi.
  - destruct mol as [mol|handle|v].
    + destruct (is_ordered mol) eqn:Ho.
      * rewrite (BabelMolAdaptor_molecule_run mol w Hi Ho). cbn [fst snd].
        split; [apply world_extends_after_construction|].
        intros self [= <-]. split; [apply fresh_adaptor_None|].
        eexists. split; [apply lookup_insert_eq|].
        apply fresh_after_scratch_None.
      * rewrite (BabelMolAdaptor_disordered_run mol w Hi Ho). cbn [fst snd].
        split; [apply world_extends_new_adaptor|]. by intros self [=].
    + rewrite (BabelMolAdaptor_handle_run handle w Hi). cbn [fst snd].
      split; [apply world_extends_new_adaptor|].
      intros self [= <-]. split; [apply fresh_adaptor_None|].
      split; [apply lookup_insert_eq|reflexivity].
    + rewrite (BabelMolAdaptor_other_run v w Hi). cbn [fst snd].
      split; [apply world_extends_new_adaptor|].
      intros self [= <-]. split; [apply fresh_adaptor_None|].
      split; [apply lookup_insert_eq|reflexivity].
  - rewrite (BabelMolAdaptor_not_imported_run mol w Hi). cbn [fst snd].
    split; [apply world_extends_new_adaptor|]. by intros self [=].
Qed.

(** ** Rules for [finishes] *)

Lemma finishes_bind {A B} (m : Py A) (k : A -> Py B) w Qret Qraise :
  finishes m w (fun a w1 => finishes (k a) w1 Qret Qraise) Qraise ->
  finishes (bind m k) w Qret Qraise.
Proof.
  unfold finishes, bind. destruct (m w) as [[a|e] w1]; [|done].
  by destruct (k a w1) as [[b|e] w2].
Qed.

Lemma finishes_ret {A} (a : A) w (Qret : A -> World -> Prop) Qraise :
  Qret a w -> finishes (ret a) w Qret Qraise.
Proof. done. Qed.

Lemma finishes_module_attr attr w (Qret : unit -> World -> Prop) Qraise :
  Qret tt w -> (forall e, Qraise e w) ->
  finishes (module_attr attr) w Qret Qraise.
Proof.
  unfold finishes, module_attr. intros H Hr.
  destruct imported; [exact H|apply Hr].
Qed.

Lemma finishes_get_obmol self w (Qret : loc -> World -> Prop) Qraise :
  (forall r, adaptors w !! self = Some {| _obmol := Some r |} -> Qret r w) ->
  (forall e, Qraise e w) ->
  finishes (get_obmol self) w Qret Qraise.
Proof.
  unfold finishes, get_obmol. intros H Hr.
  destruct (adaptors w !! self) as [[[r|]]|]; [|apply Hr|apply Hr].
  by apply H.
Qed.

Lemma finishes_deref r w (Qret : OBMol tk -> World -> Prop) Qraise :
  (forall m, ob_heap w !! r = Some m -> Qret m w) ->
  (forall e, Qraise e w) ->
  finishes (deref r) w Qret Qraise.
Proof.
  unfold finishes, deref. intros H Hr.
  destruct (ob_heap w !! r) as [m|]; [|apply Hr]. by apply H.
Qed.

Lemma finishes_mol_call r op w (Qret : unit -> World -> Prop) Qraise :
  (forall m, ob_heap w !! r = Some m ->
             Qret tt (add_call (EvMol r op) (set_mol r (run_mol_op op m) w))) ->
  (forall e, Qraise e w) ->
  finishes (mol_call r op) w Qret Qraise.
Proof.
  intros H Hr. unfold finishes. destruct (ob_heap w !! r) as [m|] eqn:E.
  - rewrite (mol_call_run _ _ _ _ E). by apply H.
  - unfold mol_call.
    rewrite (bind_Raise _ _ w (RuntimeError "invalid native handle") w).
    + apply Hr.
    + unfold deref. by rewrite E.
Qed.

Lemma finishes_find_forcefield name w (Qret : option string -> World -> Prop)
    Qraise :
  Qret (OBForceField_FindType tk name)
    (add_call (EvFindType name (OBForceField_FindType tk name)) w) ->
  (forall e, Qraise e w) ->
  finishes (find_forcefield name) w Qret Qraise.
Proof.
  intros H Hr. unfold finishes, find_forcefield, bind, module_attr.
  destruct imported; [exact H|apply Hr].
Qed.

Lemma finishes_ff_call ff method op w (Qret : unit -> World -> Prop) Qraise :
  (forall name, ff = Some name ->
     Qret tt (add_call (EvFF name op)
                (set_ff name (run_ff_op op (ff_state name w)) w))) ->
  (forall e, Qraise e w) ->
  finishes (ff_call ff method op) w Qret Qraise.
Proof. intros H Hr. destruct ff as [name|]; [by apply H|apply Hr]. Qed.

Lemma finishes_ff_GetConformers ff r w (Qret : unit -> World -> Prop) Qraise :
  (forall name m, ff = Some name -> ob_heap w !! r = Some m ->
     Qret tt (add_call (EvGetConformers name r)
                (set_mol r (GetConformers tk (ff_state name w) m) w))) ->
  (forall e, Qraise e w) ->
  finishes (ff_GetConformers ff r) w Qret Qraise.
Proof.
  intros H Hr. destruct ff as [name|]; [|apply Hr]. cbn [ff_GetConformers].
  apply finishes_bind, finishes_deref; [|exact Hr].
  intros m Hm. by apply (H name m).
Qed.

Lemma finishes_print line w (Qret : unit -> World -> Prop) Qraise :
  Qret tt (add_line line w) -> finishes (print line) w Qret Qraise.
Proof. done. Qed.

Lemma finishes_set_obmol self r w (Qret : unit -> World -> Prop) Qraise :
  Qret tt (set_adaptor self {| _obmol := Some r |} w) ->
  finishes (set_obmol self r) w Qret Qraise.
Proof. done. Qed.

Lemma finishes_elim {A} (m : Py A) w (Q : World -> Prop) :
  finishes m w (fun _ => Q) (fun _ => Q) -> Q (m w).2.
Proof. unfold finishes. by destruct (m w) as [[a|e] w']. Qed.

(** ** Worlds that differ in the held molecule only *)

Lemma touches_only_held_refl self w : touches_only_held self w w.
Proof. by repeat split. Qed.

Lemma touches_only_held_add_call self w e w1 :
  touches_only_held self w w1 -> touches_only_held self w (add_call e w1).
Proof. done. Qed.

Lemma touches_only_held_add_line self w line w1 :
  touches_only_held self w w1 -> touches_only_held self w (add_line line w1).
Proof. done. Qed.

Lemma touches_only_held_set_ff self w name f w1 :
  touches_only_held self w w1 -> touches_only_held self w (set_ff name f w1).
Proof. done. Qed.

Lemma touches_only_held_set_mol self w r m0 m w1 :
  adaptors w !! self = Some {| _obmol := Some r |} ->
  ob_heap w1 !! r = Some m0 ->
  touches_only_held self w w1 -> touches_only_held self w (set_mol r m w1).
Proof.
  intros Hself Hr (Ha & Hd & Hkeep). split; [exact Ha|]. split.
  - cbn [set_mol ob_heap]. rewrite <- Hd. by apply dom_insert_lookup_L.
  - intros r' Hr'. cbn [set_mol ob_heap]. rewrite lookup_insert_ne.
    + by apply Hkeep.
    + intros <-. by apply Hr'.
Qed.

Lemma touches_only_held_set_adaptor self w r w1 :
  adaptors w !! self = Some {| _obmol := Some r |} ->
  touches_only_held self w w1 ->
  touches_only_held self w (set_adaptor self {| _obmol := Some r |} w1).
Proof.
  intros Hself (Ha & Hd & Hkeep). split; [|by split].
  cbn [set_adaptor adaptors]. rewrite Ha. by apply insert_id.
Qed.

Ltac fin_step :=
  lazymatch goal with
  | |- finishes (bind _ _) _ _ _ => apply finishes_bind
  | |- finishes (ret _) _ _ _ => apply finishes_ret
  | |- finishes (raise _) _ _ _ => unfold finishes, raise
  | |- finishes (module_attr _) _ _ _ => apply finishes_module_attr; [|intros ?]
  | |- finishes (get_obmol _) _ _ _ =>
      apply finishes_get_obmol; [intros ? ?|intros ?]
  | |- finishes (deref _) _ _ _ => apply finishes_deref; [intros ? ?|intros ?]
  | |- finishes (mol_call _ _) _ _ _ =>
      apply finishes_mol_call; [intros ? ?|intros ?]
  | |- finishes (find_forcefield _) _ _ _ =>
      apply finishes_find_forcefield; [|intros ?]
  | |- finishes (ff_call _ _ _) _ _ _ =>
      apply finishes_ff_call; [intros ? ?|intros ?]
  | |- finishes (ff_GetConformers _ _) _ _ _ =>
      apply finishes_ff_GetConformers; [intros ? ? ? ?|intros ?]
  | |- finishes (print _) _ _ _ => apply finishes_print
  | |- finishes (set_obmol _ _) _ _ _ => apply finishes_set_obmol
  | |- finishes (match ?x with _ => _ end) _ _ _ => destruct x eqn:?
  end.

Ltac frame_step :=
  lazymatch goal with
  | |- touches_only_held _ ?w ?w => apply touches_only_held_refl
  | |- touches_only_held _ _ (add_call _ _) => apply touches_only_held_add_call
  | |- touches_only_held _ _ (add_line _ _) => apply touches_only_held_add_line
  | |- touches_only_held _ _ (set_ff _ _ _) => apply touches_only_held_set_ff
  | |- touches_only_held _ _ (set_mol _ _ _) =>
      eapply touches_only_held_set_mol; [eassumption|eassumption|]
  | |- touches_only_held _ _ (set_adaptor _ _ _) =>
      apply touches_only_held_set_adaptor; [assumption|]
  end.

(** X8: whether [confm_search] returns or raises, and whatever its
    arguments, it leaves every adaptor object as it was (the adaptor holds
    the handle it held), creates and drops no native molecule, and changes no
    molecule other than the one the adaptor held. *)
Theorem confm_search_touches_only_held self forcefield freeze_atoms rmsd_cutoff
    energy_cutoff conf_cutoff verbose make_3d add_hydrogens w :
  touches_only_held self w
    (confm_search self forcefield freeze_atoms rmsd_cutoff energy_cutoff
       conf_cutoff verbose make_3d add_hydrogens w).2.
Proof.
  apply (finishes_elim _ w (touches_only_held self w)).
  unfold confm_search, openbabel_mol, atom_iter.
  repeat fin_step.
  all: repeat frame_step.
Qed.

(** ** A search with a force field that is found *)

(** X7: on an adaptor that holds a live handle, [confm_search] with a
    force-field name that the toolkit resolves looks the name up once and
    prints no notice; it runs the optional 3D build and hydrogen addition
    first, sets constraints only for a non-empty freeze list (computed from
    the atoms as they are after those two steps), then runs the rotor
    search, the conformer generation and the collection on that force field,
    prints the conformer count of the resulting molecule if verbose, and
    returns [None]. *)
Theorem confm_search_with_known_forcefield self obmol m forcefield ff
    freeze_atoms rmsd_cutoff energy_cutoff conf_cutoff verbose make_3d
    add_hydrogens w
    (Hi : imported = true)
    (Hself : adaptors w !! self = Some {| _obmol := Some obmol |})
    (Hm : ob_heap w !! obmol = Some m)
    (Hknown : OBForceField_FindType tk forcefield = Some ff) :
  exists w' m',
    confm_search self forcefield freeze_atoms rmsd_cutoff energy_cutoff
      conf_cutoff verbose make_3d add_hydrogens w = (Ret PyNone, w')
    /\ ob_heap w' !! obmol = Some m'
    /\ stdout w' = stdout w ++ search_lines freeze_atoms verbose (NumConformers tk m')
    /\ calls w'
       = calls w ++ search_prelude obmol make_3d add_hydrogens
         ++ [EvFindType forcefield (Some ff)]
         ++ constraint_events ff (after_prelude make_3d add_hydrogens m) freeze_atoms
         ++ search_events ff obmol rmsd_cutoff conf_cutoff energy_cutoff verbose.
Proof.
  unfold confm_search.
  destruct make_3d, add_hydrogens, verbose, freeze_atoms as [[|x l]|].
  all: eexists _, _; split; [py_solve|].
  all: cbn [ob_heap stdout calls search_prelude search_events search_lines
              constraint_events after_prelude].
  all: split; [apply lookup_insert_eq|].
  all: split; repeat rewrite <- app_assoc; cbn [app]; rewrite ?app_nil_r;
    reflexivity.
Qed.

(** ** Reading a whole file *)

Lemma alloc_all_all ms : forall w,
  exists rs w',
    alloc_all ms w = (Ret rs, w')
    /\ adaptors w' = adaptors w
    /\ calls w' = calls w
    /\ stdout w' = stdout w
    /\ (forall r m, ob_heap w !! r = Some m -> ob_heap w' !! r = Some m)
    /\ NoDup rs
    /\ Forall2 (fun r m => ob_heap w !! r = None /\ ob_heap w' !! r = Some m) rs ms.
Proof.
  induction ms as [|m ms IH]; intros w.
  - exists [], w. repeat split; try done; constructor.
  - set (r := fresh (dom (ob_heap w))).
    assert (Hr : ob_heap w !! r = None) by apply fresh_mol_None.
    destruct (IH (set_mol r m w)) as (rs & w' & Hrun & Ha & Hc & Hs & Hkeep & Hnd & Hall).
    assert (Hold : forall r', r' ∈ rs -> r' <> r /\ ob_heap w !! r' = None).
    { intros r' Hin.
      destruct (proj1 (list_elem_of_lookup _ _) Hin) as [i Hi].
      destruct (Forall2_lookup_l _ _ _ _ _ Hall Hi) as (m' & _ & Hnone & _).
      cbn [set_mol ob_heap] in Hnone.
      destruct (decide (r' = r)) as [->|Hne].
      - by rewrite lookup_insert_eq in Hnone.
      - by rewrite lookup_insert_ne in Hnone. }
    exists (r :: rs), w'. split.
    { cbn [alloc_all].
      rewrite (bind_Ret _ _ w r (set_mol r m w)) by reflexivity.
      rewrite (bind_Ret _ _ _ _ _ Hrun). reflexivity. }
    split; [done|]. split; [done|]. split; [done|]. split.
    { intros r' m' Hr'. apply Hkeep. cbn [set_mol ob_heap].
      rewrite lookup_insert_ne; [done|]. intros <-. congruence. }
    split.
    { constructor; [|done]. intros Hin. by destruct (Hold r Hin). }
    constructor.
    + split; [exact Hr|]. apply Hkeep. apply lookup_insert_eq.
    + eapply Forall2_impl; [exact Hall|].
      intros r' m' [Hnone Hsome]. split; [|exact Hsome].
      cbn [set_mol ob_heap] in Hnone.
      destruct (decide (r' = r)) as [->|Hne]; [done|].
      by rewrite lookup_insert_ne in Hnone.
Qed.

(** X10: [from_file] reads the whole file before it looks at the first
    molecule: every molecule the converter yields becomes a native molecule
    of its own (distinct new handles, in file order), the molecules that
    existed before are untouched, and no call is made on any molecule.  The
    adaptor holds the first handle; with no molecule the call raises
    [IndexError] and makes no adaptor. *)
Theorem from_file_reads_every_molecule filename file_format ms w
    (Hi : imported = true)
    (Hread : ReadFile tk file_format filename = Ret ms) :
  exists rs w',
    (from_file filename file_format w).2 = w'
    /\ calls w' = calls w ++ [EvRead rs]
    /\ NoDup rs
    /\ Forall2 (fun r m => ob_heap w !! r = None /\ ob_heap w' !! r = Some m) rs ms
    /\ (forall r m, ob_heap w !! r = Some m -> ob_heap w' !! r = Some m)
    /\ match rs with
       | [] =>
           (from_file filename file_format w).1
           = Raise (IndexError "list index out of range")
           /\ adaptors w' = adaptors w
       | first :: _ =>
           exists self,
             (from_file filename file_format w).1 = Ret self
             /\ adaptors w !! self = None
             /\ adaptors w' !! self = Some {| _obmol := Some first |}
       end.
Proof.
  destruct (alloc_all_all ms w)
    as (rs & w1 & Hrun & Ha & Hc & Hs & Hkeep & Hnd & Hall).
  assert (Hpb : pb_readfile file_format filename w
                = (Ret (map (fun r => {| pbOBMol := r |}) rs),
                   add_call (EvRead rs) w1)).
  { unfold pb_readfile. rewrite Hread.
    rewrite (bind_Ret _ _ _ _ _ (module_attr_run _ _ Hi)).
    rewrite (bind_Ret _ _ w ms w) by reflexivity.
    rewrite (bind_Ret _ _ _ _ _ Hrun). reflexivity. }
  exists rs. unfold from_file. rewrite (bind_Ret _ _ _ _ _ Hpb).
  destruct rs as [|first rs]; cbn [map pbOBMol].
  - unfold raise. cbn [fst snd]. eexists. split; [reflexivity|].
    cbn [add_call calls ob_heap adaptors]. rewrite Hc. by repeat split.
  - rewrite (BabelMolAdaptor_handle_run first _ Hi). cbn [fst snd].
    eexists. split; [reflexivity|].
    cbn [add_call set_adaptor calls ob_heap adaptors].
    rewrite Hc, Ha. split; [done|]. split; [done|]. split; [done|].
    split; [done|].
    eexists. split; [reflexivity|].
    split; [apply fresh_adaptor_None|apply lookup_insert_eq].
Qed.

(** ** The round trip inside the build session *)

Lemma site_atoms_of_Molecule_new (l : list OBAtom) :
  map site_atom (sites (Molecule_new (map atomic_num l) (map vector l))) = l.
Proof.
  unfold Molecule_new. cbn [sites].
  induction l as [|[z v] l IH]; [reflexivity|].
  cbn [map zip_with]. rewrite IH. reflexivity.
Qed.

(** X6: the round trip returns the atoms as given.  The constructor calls
    [Center] inside the build session, where it moves nothing, so the
    molecule read back from an adaptor built of an ordered molecule has the
    input's species and the input's coordinates, uncentered; it is ordered,
    and building an adaptor of it and reading back again returns exactly
    that molecule. *)
Theorem roundtrip_returns_atoms_as_given mol w again building
    (Hatoms : AtomsContract tk)
    (Hsession : SessionContract tk building)
    (Hi : imported = true)
    (Ho : is_ordered mol = true) :
  exists self mol' w',
    BabelMolAdaptor (PyMolecule mol) w = (Ret self, w')
    /\ pymatgen_mol self w' = (Ret mol', w')
    /\ species_sequence mol' = species_sequence mol
    /\ coords_sequence mol' = coords_sequence mol
    /\ is_ordered mol' = true
    /\ exists self2 w2,
         BabelMolAdaptor (PyMolecule mol') again = (Ret self2, w2)
         /\ pymatgen_mol self2 w2 = (Ret mol', w2).
Proof.
  eexists _, _, _.
  split; [by apply BabelMolAdaptor_molecule_run|].
  split.
  { eapply pymatgen_mol_run; [exact Hi| |]; apply lookup_insert_eq. }
  rewrite (atoms_built_mol_in_session building).
  split.
  { rewrite species_Molecule_new. unfold species_sequence. rewrite map_map.
    apply map_ext_in. intros s Hs. symmetry. apply specie_site_atom.
    pose proof (is_ordered_sites _ Ho) as Hall.
    rewrite Forall_forall in Hall. apply Hall. by apply list_elem_of_In. }
  split; [by rewrite coords_Molecule_new, vector_site_atoms|].
  split; [apply is_ordered_Molecule_new|].
  eexists _, _.
  split; [apply BabelMolAdaptor_molecule_run;
          [exact Hi|apply is_ordered_Molecule_new]|].
  erewrite pymatgen_mol_run; [|exact Hi|apply lookup_insert_eq|apply lookup_insert_eq].
  by rewrite (atoms_built_mol_in_session building), site_atoms_of_Molecule_new.
Qed.

(** ** Local optimisation *)

Context {pybel : Pybel tk}.

(** X11: on an adaptor that holds a live handle, [localopt] optimises the
    held molecule in place.  It returns [None] when pybel's optimisation
    returns and passes pybel's exception on when it raises; either way the
    adaptor objects are as before (the same handle is held), the held
    molecule is what pybel left, no other molecule is created or changed and
    nothing is logged or printed. *)
Theorem localopt_in_place self obmol m forcefield steps w
    (Hi : imported = true)
    (Hself : adaptors w !! self = Some {| _obmol := Some obmol |})
    (Hm : ob_heap w !! obmol = Some m) :
  exists w',
    localopt self forcefield steps w
    = (match (Molecule_localopt forcefield steps m).1 with
       | Ret _ => Ret PyNone
       | Raise e => Raise e
       end, w')
    /\ adaptors w' = adaptors w
    /\ ob_heap w' = <[obmol := (Molecule_localopt forcefield steps m).2]> (ob_heap w)
    /\ calls w' = calls w
    /\ stdout w' = stdout w.
Proof.
  unfold localopt, pb_Molecule.
  rewrite (bind_Ret _ _ _ _ _ (module_attr_run _ _ Hi)).
  rewrite (bind_Ret _ _ _ _ _ (get_obmol_run _ _ _ Hself)).
  rewrite (bind_Ret _ _ w {| pbOBMol := obmol |} w) by reflexivity.
  unfold pbmol_localopt. cbn [pbOBMol].
  destruct (Molecule_localopt forcefield steps m) as [[[]|e] m'] eqn:E.
  - eexists. split.
    + erewrite bind_Ret; [reflexivity|].
      rewrite (bind_Ret _ _ _ _ _ (deref_run _ _ _ Hm)). rewrite E. reflexivity.
    + cbn [set_adaptor set_mol adaptors ob_heap calls stdout snd].
      split; [by apply insert_id|done].
  - eexists. split.
    + erewrite bind_Raise; [reflexivity|].
      rewrite (bind_Ret _ _ _ _ _ (deref_run _ _ _ Hm)). rewrite E. reflexivity.
    + done.
Qed.

Lemma finishes_pbmol_localopt pbmol forcefield steps w
    (Qret : unit -> World -> Prop) Qraise :
  (forall m m', ob_heap w !! pbOBMol pbmol = Some m ->
     Qret tt (set_mol (pbOBMol pbmol) m' w)
     /\ forall e, Qraise e (set_mol (pbOBMol pbmol) m' w)) ->
  (forall e, Qraise e w) ->
  finishes (pbmol_localopt pbmol forcefield steps) w Qret Qraise.
Proof.
  intros H Hr. unfold pbmol_localopt.
  apply finishes_bind, finishes_deref; [|exact Hr].
  intros m Hm. unfold finishes.
  destruct (H m (Molecule_localopt forcefield steps m).2 Hm) as [Hret Hraise].
  destruct (Molecule_localopt forcefield steps m) as [[[]|e] m']; cbn [fst snd] in *.
  - exact Hret.
  - apply Hraise.
Qed.

(** X12: whether [localopt] returns or raises, on any adaptor (also one
    without a handle) and with any force-field name, it leaves every adaptor
    object as it was, creates and drops no native molecule, and changes no
    molecule other than the one the adaptor held. *)
Theorem localopt_touches_only_held self forcefield steps w :
  touches_only_held self w (localopt self forcefield steps w).2.
Proof.
  apply (finishes_elim _ w (touches_only_held self w)).
  unfold localopt, pb_Molecule.
  repeat fin_step.
  all: try solve [repeat frame_step].
  apply finishes_pbmol_localopt.
  - cbn [pbOBMol]. intros m m' Hm. split.
    + repeat fin_step. repeat frame_step.
    + intros e. repeat frame_step.
  - intros e. repeat frame_step.
Qed.

(** ** A force field that is not found *)

(** Runs a program up to the step that raises. *)
Ltac py_fail :=
  cbv beta iota; ff_known; cbn [ff_eq_zero];
  lazymatch goal with
  | |- bind _ _ _ = _ =>
      first [ erewrite bind_Ret; [| solve [py_solve] ]; world_norm; ff_norm; py_fail
            | erewrite bind_Raise; [reflexivity | solve [py_fail] ] ]
  | |- _ => reflexivity
  end.

(** X13: when the toolkit does not resolve the force-field name,
    [confm_search] raises an [AttributeError] on the [None] of the lookup
    instead of searching: [None == 0] is false, so no notice is printed and
    "mmff94" is not looked up.  What was done before is not undone: the held
    molecule has been through the 3D build and the hydrogen addition that
    were asked for, the lookup is logged and the line about frozen atoms is
    printed.  The adaptor still holds its handle. *)
Theorem confm_search_with_unknown_forcefield self obmol m forcefield
    freeze_atoms rmsd_cutoff energy_cutoff conf_cutoff verbose make_3d
    add_hydrogens w
    (Hi : imported = true)
    (Hself : adaptors w !! self = Some {| _obmol := Some obmol |})
    (Hm : ob_heap w !! obmol = Some m)
    (Hunknown : OBForceField_FindType tk forcefield = None) :
  exists msg w',
    confm_search self forcefield freeze_atoms rmsd_cutoff energy_cutoff
      conf_cutoff verbose make_3d add_hydrogens w
    = (Raise (AttributeError msg), w')
    /\ ob_heap w' !! obmol = Some (after_prelude make_3d add_hydrogens m)
    /\ adaptors w' = adaptors w
    /\ stdout w'
       = stdout w
         ++ match freeze_atoms with
            | Some (x :: l) =>
                [pretty (length (x :: l)) +:+ " atoms will be freezed"]
            | _ => []
            end
    /\ calls w'
       = calls w ++ search_prelude obmol make_3d add_hydrogens
         ++ [EvFindType forcefield None].
Proof.
  unfold confm_search.
  destruct make_3d, add_hydrogens, freeze_atoms as [[|x l]|].
  all: eexists _, _; split; [py_fail|].
  all: cbn [ob_heap adaptors stdout calls search_prelude after_prelude].
  all: split; [first [apply lookup_insert_eq | exact Hm]|].
  all: split; [reflexivity|].
  all: split; repeat rewrite <- app_assoc; cbn [app]; rewrite ?app_nil_r;
    reflexivity.
Qed.

End AdaptorProperties.

(** * The reference toolkit meets the contracts *)

Lemma reference_atoms : AtomsContract Reference.toolkit.
Proof.
  split; try done.
  - intros m. cbn. unfold Reference.center.
    destruct (Reference.m_depth m); [|reflexivity].
    cbn. unfold center_atoms. by rewrite map_map.
  - intros m. cbn. unfold Reference.end_modify.
    by destruct (Reference.m_depth m) as [|[|d]].
Qed.

Lemma reference_session :
  SessionContract Reference.toolkit (fun m => Reference.m_depth m <> 0%nat).
Proof.
  split; try done.
  intros m Hm. cbn. unfold Reference.center.
  by destruct (Reference.m_depth m).
Qed.

(** * The properties on concrete inputs *)

Example h2_is_not_centered : ~ already_centered (coords_sequence h2_molecule).
Proof.
  unfold already_centered. cbn. intros H. injection H as _ _ H. lra.
Qed.

Example h2_centered_positions :
  centered_positions (coords_sequence h2_molecule)
  = [(0, 0, -1)%R; (0, 0, 1)%R].
Proof.
  unfold centered_positions, centroid. cbn.
  repeat (f_equal; try lra).
Qed.

Lemma disordered_molecule_rejected_witness :
  imported = true
  /\ site_is_ordered
       {| species := [({| specie_Z := 7 |}, 1 # 2); ({| specie_Z := 8 |}, 1 # 2)]%Q;
          coords := (1, 0, 0)%R |} = false
  /\ exists w',
       BabelMolAdaptor (PyMolecule disordered_molecule) empty_world
       = (Raise (ValueError "OpenBabel Molecule only supports ordered molecules."),
          w')
       /\ ob_heap w' = ob_heap empty_world
       /\ calls w' = calls empty_world
       /\ adaptors w'
          = <[fresh (dom (adaptors empty_world)) := {| _obmol := None |}]>
              (adaptors empty_world).
Proof.
  split; [reflexivity|]. split; [reflexivity|].
  apply (disordered_molecule_rejected disordered_molecule
           {| species := [({| specie_Z := 7 |}, 1 # 2);
                          ({| specie_Z := 8 |}, 1 # 2)]%Q;
              coords := (1, 0, 0)%R |} empty_world eq_refl).
  - unfold disordered_molecule. cbn [sites]. repeat constructor.
  - reflexivity.
Defined.

Lemma readers_take_first_or_fail_witness :
  imported = true
  /\ (exists self obmol w',
        from_file "h2.xyz" "xyz" empty_world = (Ret self, w')
        /\ adaptors w' !! self = Some {| _obmol := Some obmol |}
        /\ ob_heap w' !! obmol = Some Reference.h2)
  /\ (exists msg,
        from_string "empty.xyz" "xyz" empty_world
        = (Raise (IOError msg), empty_world)).
Proof.
  split; [reflexivity|].
  exact (readers_take_first_or_fail "h2.xyz" "empty.xyz" "xyz" empty_world eq_refl).
Defined.


Lemma openbabel_mol_is_the_held_handle_witness :
  imported = true
  /\ adaptors h2_world !! 0%nat = Some {| _obmol := Some 0%nat |}
  /\ ob_heap h2_world !! 0%nat = Some Reference.h2
  /\ openbabel_mol 0%nat h2_world = (Ret 0%nat, h2_world)
  /\ forall op,
       exists w',
         bind (openbabel_mol 0%nat) (fun handle => mol_call handle op) h2_world
         = (Ret tt, w')
         /\ adaptors w' !! 0%nat = Some {| _obmol := Some 0%nat |}
         /\ ob_heap w' !! 0%nat = Some (run_mol_op op Reference.h2)
         /\ dom (ob_heap w') = dom (ob_heap h2_world)
         /\ pymatgen_mol 0%nat w'
            = (Ret (Molecule_new
                      (map atomic_num
                         (OBMolAtomIter Reference.toolkit
                            (run_mol_op op Reference.h2)))
                      (map vector
                         (OBMolAtomIter Reference.toolkit
                            (run_mol_op op Reference.h2)))), w').
Proof.
  split; [reflexivity|]. split; [reflexivity|]. split; [reflexivity|].
  exact (openbabel_mol_is_the_held_handle 0%nat 0%nat Reference.h2 h2_world
           eq_refl eq_refl eq_refl).
Defined.

Lemma confm_search_returns_None_witness :
  h2_search = (Ret PyNone, h2_search.2)
  /\ PyNone = PyNone
  /\ exists obmol f m,
       adaptors h2_world !! 0%nat = Some {| _obmol := Some obmol |}
       /\ adaptors h2_search.2 = adaptors h2_world
       /\ ob_heap h2_search.2 !! obmol
          = Some (GetConformers Reference.toolkit
                    (DiverseConfGen Reference.toolkit (1 / 2)%R 100000 50%R false
                       (WeightedRotorSearch Reference.toolkit 500 25 f)) m).
Proof.
  assert (Hrun : h2_search = (Ret PyNone, h2_search.2))
    by (vm_compute; reflexivity).
  split; [exact Hrun|].
  exact (confm_search_returns_None 0%nat "mmff94" None (1 / 2)%R 50%R 100000
           false false false h2_world PyNone h2_search.2 Hrun).
Defined.

Lemma other_input_leaves_no_handle_witness :
  imported = true
  /\ exists w',
       BabelMolAdaptor (PyOther (PyStr "H2O")) empty_world = (Ret 0%nat, w')
       /\ adaptors w' !! 0%nat = Some {| _obmol := None |}
       /\ ob_heap w' = ob_heap empty_world
       /\ calls w' = calls empty_world
       /\ pymatgen_mol 0%nat w'
          = (Raise (AttributeError
                      "'BabelMolAdaptor' object has no attribute '_obmol'"), w')
       /\ openbabel_mol 0%nat w'
          = (Raise (AttributeError
                      "'BabelMolAdaptor' object has no attribute '_obmol'"), w')
       /\ pybel_mol 0%nat w'
          = (Raise (AttributeError
                      "'BabelMolAdaptor' object has no attribute '_obmol'"), w')
       /\ forall forcefield freeze_atoms rmsd_cutoff energy_cutoff conf_cutoff
            verbose make_3d add_hydrogens,
            confm_search 0%nat forcefield freeze_atoms rmsd_cutoff energy_cutoff
              conf_cutoff verbose make_3d add_hydrogens w'
            = (Raise (AttributeError
                        "'BabelMolAdaptor' object has no attribute '_obmol'"), w').
Proof.
  split; [reflexivity|].
  exact (other_input_leaves_no_handle (PyStr "H2O") empty_world eq_refl).
Defined.

(** * The freeze list on a concrete search *)

(** C2: on the hydrogen molecule, [confm_search(freeze_atoms=[1])] should
    constrain the atom of native index 1 and no other; the code passes the
    force field an empty constraint set, because its membership test asks
    for the builtin [id] in the list instead of the atom's index. *)
Theorem freeze_list_is_ignored :
  let atoms := imap (fun i a => (i, a)) (Reference.m_atoms Reference.h2) in
  indexed_constraints atoms [PyInt 1] = [1]
  /\ freeze_constraints atoms [PyInt 1] = []
  /\ h2_frozen_search.1 = Ret PyNone
  /\ calls h2_frozen_search.2 !! 1%nat
     = Some (EvFF "mmff94" (OpSetConstraints []))
  /\ Reference.f_constraints <$> (ff_heap h2_frozen_search.2 !! "mmff94")
     = Some [].
Proof. by vm_compute. Qed.

(** * The further properties on concrete inputs *)

Lemma constructor_requires_openbabel_witness :
  @imported imports_failed = false
  /\ exists w',
       @BabelMolAdaptor Reference.toolkit imports_failed
         (PyMolecule disordered_molecule) unimported_world
       = (Raise (RuntimeError
                   ("BabelMolAdaptor requires openbabel to be installed with "
                    +:+ "Python bindings. Please get it at http://openbabel.org.")),
          w')
       /\ ob_heap w' = ob_heap unimported_world
       /\ calls w' = calls unimported_world
       /\ adaptors w' !! fresh (dom (adaptors unimported_world))
          = Some {| _obmol := None |}.
Proof.
  split; [reflexivity|].
  exact (@constructor_requires_openbabel Reference.toolkit imports_failed
           (PyMolecule disordered_molecule) unimported_world eq_refl).
Defined.

Lemma readers_fail_on_missing_pybel_witness :
  @imported imports_failed = false
  /\ (exists msg,
        @from_file Reference.toolkit imports_failed "h2.xyz" "xyz" unimported_world
        = (Raise (AttributeError msg), unimported_world))
  /\ (exists msg,
        @from_string Reference.toolkit imports_failed "h2.xyz" "xyz"
          unimported_world
        = (Raise (AttributeError msg), unimported_world)).
Proof.
  split; [reflexivity|].
  exact (@readers_fail_on_missing_pybel Reference.toolkit imports_failed
           "h2.xyz" "h2.xyz" "xyz" unimported_world eq_refl).
Defined.

Lemma adopted_handle_is_shared_witness :
  imported = true
  /\ adaptors h2_world !! 0%nat = Some {| _obmol := Some 0%nat |}
  /\ ob_heap h2_world !! 0%nat = Some Reference.h2
  /\ exists second w',
       bind (openbabel_mol 0%nat)
         (fun handle => BabelMolAdaptor (PyOBMol handle)) h2_world
       = (Ret second, w')
       /\ second <> 0%nat
       /\ adaptors w' !! 0%nat = Some {| _obmol := Some 0%nat |}
       /\ adaptors w' !! second = Some {| _obmol := Some 0%nat |}
       /\ ob_heap w' = ob_heap h2_world
       /\ calls w' = calls h2_world
       /\ forall op,
            exists w'',
              mol_call 0%nat op w' = (Ret tt, w'')
              /\ pymatgen_mol 0%nat w'' = pymatgen_mol second w''
              /\ pymatgen_mol second w''
                 = (Ret (Molecule_new
                           (map atomic_num
                              (OBMolAtomIter Reference.toolkit
                                 (run_mol_op op Reference.h2)))
                           (map vector
                              (OBMolAtomIter Reference.toolkit
                                 (run_mol_op op Reference.h2)))), w'').
Proof.
  split; [reflexivity|]. split; [reflexivity|]. split; [reflexivity|].
  exact (adopted_handle_is_shared 0%nat 0%nat Reference.h2 h2_world
           eq_refl eq_refl eq_refl).
Defined.

Lemma pymatgen_mol_reads_every_atom_witness :
  imported = true
  /\ adaptors h2_world !! 0%nat = Some {| _obmol := Some 0%nat |}
  /\ ob_heap h2_world !! 0%nat = Some Reference.h2
  /\ exists mol',
       pymatgen_mol 0%nat h2_world = (Ret mol', h2_world)
       /\ length (sites mol') = 2%nat
       /\ species_sequence mol'
          = [Ret {| specie_Z := 1 |}; Ret {| specie_Z := 1 |}]
       /\ coords_sequence mol' = [(0, 0, 0)%R; (0, 0, 1)%R]
       /\ is_ordered mol' = true.
Proof.
  split; [reflexivity|]. split; [reflexivity|]. split; [reflexivity|].
  exact (pymatgen_mol_reads_every_atom 0%nat 0%nat Reference.h2 h2_world
           eq_refl eq_refl eq_refl).
Defined.

Lemma confm_search_with_known_forcefield_witness :
  imported = true
  /\ adaptors h2_world !! 0%nat = Some {| _obmol := Some 0%nat |}
  /\ ob_heap h2_world !! 0%nat = Some Reference.h2
  /\ OBForceField_FindType Reference.toolkit "uff" = Some "uff"
  /\ exists w' m',
       confm_search 0%nat "uff" (Some [PyInt 2]) (1 / 2)%R 50%R 100000
         true true false h2_world = (Ret PyNone, w')
       /\ ob_heap w' !! 0%nat = Some m'
       /\ stdout w'
          = stdout h2_world
            ++ search_lines (Some [PyInt 2]) true
                 (NumConformers Reference.toolkit m')
       /\ calls w'
          = calls h2_world ++ search_prelude 0%nat true false
            ++ [EvFindType "uff" (Some "uff")]
            ++ constraint_events "uff" (after_prelude true false Reference.h2)
                 (Some [PyInt 2])
            ++ search_events "uff" 0%nat (1 / 2)%R 100000 50%R true.
Proof.
  split; [reflexivity|]. split; [reflexivity|]. split; [reflexivity|].
  split; [reflexivity|].
  exact (confm_search_with_known_forcefield 0%nat 0%nat Reference.h2 "uff" "uff"
           (Some [PyInt 2]) (1 / 2)%R 50%R 100000 true true false h2_world
           eq_refl eq_refl eq_refl eq_refl).
Defined.

Lemma from_file_reads_every_molecule_witness :
  imported = true
  /\ ReadFile Reference.toolkit "xyz" "h2.xyz" = Ret [Reference.h2]
  /\ exists rs w',
       (from_file "h2.xyz" "xyz" h2_world).2 = w'
       /\ calls w' = calls h2_world ++ [EvRead rs]
       /\ NoDup rs
       /\ Forall2 (fun r m => ob_heap h2_world !! r = None
                              /\ ob_heap w' !! r = Some m) rs [Reference.h2]
       /\ (forall r m, ob_heap h2_world !! r = Some m -> ob_heap w' !! r = Some m)
       /\ match rs with
          | [] =>
              (from_file "h2.xyz" "xyz" h2_world).1
              = Raise (IndexError "list index out of range")
              /\ adaptors w' = adaptors h2_world
          | first :: _ =>
              exists self,
                (from_file "h2.xyz" "xyz" h2_world).1 = Ret self
                /\ adaptors h2_world !! self = None
                /\ adaptors w' !! self = Some {| _obmol := Some first |}
          end.
Proof.
  split; [reflexivity|]. split; [reflexivity|].
  exact (from_file_reads_every_molecule "h2.xyz" "xyz" [Reference.h2] h2_world
           eq_refl eq_refl).
Defined.

Lemma localopt_in_place_witness :
  imported = true
  /\ adaptors h2_world !! 0%nat = Some {| _obmol := Some 0%nat |}
  /\ ob_heap h2_world !! 0%nat = Some Reference.h2
  /\ exists w',
       localopt 0%nat "mmff94" 500 h2_world = (Ret PyNone, w')
       /\ adaptors w' = adaptors h2_world
       /\ ob_heap w'
          = <[0%nat := Reference.with_atoms center_atoms Reference.h2]>
              (ob_heap h2_world)
       /\ calls w' = calls h2_world
       /\ stdout w' = stdout h2_world.
Proof.
  split; [reflexivity|]. split; [reflexivity|]. split; [reflexivity|].
  exact (localopt_in_place 0%nat 0%nat Reference.h2 "mmff94" 500 h2_world
           eq_refl eq_refl eq_refl).
Defined.

Lemma roundtrip_returns_atoms_as_given_witness :
  imported = true
  /\ is_ordered h2_molecule = true
  /\ exists self mol' w',
       BabelMolAdaptor (PyMolecule h2_molecule) empty_world = (Ret self, w')
       /\ pymatgen_mol self w' = (Ret mol', w')
       /\ species_sequence mol' = species_sequence h2_molecule
       /\ coords_sequence mol' = coords_sequence h2_molecule
       /\ is_ordered mol' = true
       /\ exists self2 w2,
            BabelMolAdaptor (PyMolecule mol') h2_world = (Ret self2, w2)
            /\ pymatgen_mol self2 w2 = (Ret mol', w2).
Proof.
  split; [reflexivity|]. split; [reflexivity|].
  exact (roundtrip_returns_atoms_as_given h2_molecule empty_world h2_world
           (fun m => Reference.m_depth m <> 0%nat)
           reference_atoms reference_session eq_refl eq_refl).
Defined.

Lemma confm_search_with_unknown_forcefield_witness :
  imported = true
  /\ adaptors h2_world !! 0%nat = Some {| _obmol := Some 0%nat |}
  /\ ob_heap h2_world !! 0%nat = Some Reference.h2
  /\ OBForceField_FindType Reference.toolkit "amber" = None
  /\ exists msg w',
       confm_search 0%nat "amber" (Some [PyInt 1]) (1 / 2)%R 50%R 100000
         false false true h2_world
       = (Raise (AttributeError msg), w')
       /\ ob_heap w' !! 0%nat = Some (after_prelude false true Reference.h2)
       /\ adaptors w' = adaptors h2_world
       /\ stdout w' = stdout h2_world ++ ["1 atoms will be freezed"]
       /\ calls w'
          = calls h2_world ++ search_prelude 0%nat false true
            ++ [EvFindType "amber" None].
Proof.
  split; [reflexivity|]. split; [reflexivity|]. split; [reflexivity|].
  split; [reflexivity|].
  exact (confm_search_with_unknown_forcefield 0%nat 0%nat Reference.h2 "amber"
           (Some [PyInt 1]) (1 / 2)%R 50%R 100000 false false true h2_world
           eq_refl eq_refl eq_refl eq_refl).
Defined.

(** * Where the constructor and the search miss their aim *)

(** C1: the round trip of the hydrogen molecule at (0,0,0) and (0,0,2)
    should return the positions moved so that the centroid is the origin,
    (0,0,-1) and (0,0,1).  The constructor calls [Center] before
    [EndModify], while the build session is open and there is nothing for
    it to shift: the molecule read back has the input's positions, which
    are not centered. *)
Theorem roundtrip_returns_uncentered_coordinates :
  is_ordered h2_molecule = true
  /\ exists mol',
       h2_roundtrip.1 = Ret mol'
       /\ coords_sequence mol' = coords_sequence h2_molecule
       /\ coords_sequence mol' <> centered_positions (coords_sequence h2_molecule)
       /\ ~ already_centered (coords_sequence h2_molecule).
Proof.
  split; [reflexivity|].
  exists (Molecule_new [1; 1] [(0, 0, 0)%R; (0, 0, 2)%R]).
  split; [vm_compute; reflexivity|].
  split; [reflexivity|].
  split; [|exact h2_is_not_centered].
  rewrite h2_centered_positions. cbn. intros H. injection H as H. lra.
Qed.

(** C7: an adaptor built from the water cation (charge +1, multiplicity 2)
    should hold a handle that reads back +1 and 2.  The constructor does
    call [SetTotalSpinMultiplicity(2)] and [SetTotalCharge(1)], but before
    [EndModify], which closes the build session and resets what was set:
    the handle reads back 0 and 1. *)
Theorem total_charge_and_spin_are_reset :
  is_ordered water_cation = true
  /\ charge water_cation = 1
  /\ spin_multiplicity water_cation = 2
  /\ calls water_cation_handle.2 !! 8%nat
     = Some (EvMol 1%nat (OpSetTotalSpinMultiplicity 2))
  /\ calls water_cation_handle.2 !! 9%nat
     = Some (EvMol 1%nat (OpSetTotalCharge 1))
  /\ calls water_cation_handle.2 !! 12%nat = Some (EvMol 1%nat OpEndModify)
  /\ exists m,
       water_cation_handle.1 = Ret m
       /\ GetTotalCharge Reference.toolkit m = 0
       /\ GetTotalSpinMultiplicity Reference.toolkit m = 1.
Proof.
  repeat (split; [vm_compute; reflexivity|]).
  eexists. split; [vm_compute; reflexivity|]. by split.
Qed.

(** C6: [confm_search(forcefield="amber")] on the hydrogen molecule, with a
    toolkit that knows "mmff94" but not "amber", should print the notice,
    fall back on "mmff94" and search.  The lookup returns [None], which the
    test [ff == 0] does not recognise: nothing is printed, "mmff94" is not
    looked up, and the call raises on [None.WeightedRotorSearch]. *)
Theorem unknown_forcefield_is_not_replaced :
  OBForceField_FindType Reference.toolkit "amber" = None
  /\ OBForceField_FindType Reference.toolkit "mmff94" = Some "mmff94"
  /\ h2_amber_search.1
     = Raise (AttributeError
                "'NoneType' object has no attribute 'WeightedRotorSearch'")
  /\ stdout h2_amber_search.2 = []
  /\ calls h2_amber_search.2 = [EvFindType "amber" None].
Proof. by vm_compute. Qed.
